(** * pwrstat-scraper: parsing the [pwrstat -status] report and mapping it
      to an InfluxDB point.

    A shallow embedding of [pwrstat-scraper.py]: [parse_pwrstat],
    [write_influxdb] and the loop of [run_scrape].

    Conventions of the embedding.
    - A Python [str] is a [string]; a character is a code point below 256.
    - A Python [dict] with [str] keys is a [gmap string _].
    - A Python exception is a value of [exn]; a function that can raise
      returns a [result].
    - What the program does to the outside world (logging, the sink, the
      clock, the subprocess, sleeping) is recorded as a list of [event]s;
      what the outside world answers is read from an explicit record.
      The answers that the program looks at are modelled: the exit code,
      the two decoded texts (decoding can raise), the clock, the result
      of [write_points] (which can raise too) and the end of [time.sleep]
      (which raises on an interval it refuses, and can raise while it
      sleeps).  The other library calls ([Popen], [communicate], the
      logger) are taken to return. *)

From Stdlib Require Import Ascii String ZArith QArith Qreduction Qround.
From stdpp Require Import gmap strings list fin_maps.

Local Open Scope string_scope.
Local Open Scope Z_scope.

(** ** Exceptions and results *)

Inductive exn : Type :=
| IndexError
| KeyError (key : string)
| ValueError (arg : string)
| UnicodeDecodeError
| OverflowError
| TypeError (msg : string)
| OSError (msg : string).

Inductive result (A : Type) : Type :=
| Ok (a : A)
| Raise (e : exn).
Arguments Ok {A} a.
Arguments Raise {A} e.

#[global] Instance result_ret : MRet result := λ A a, Ok a.
#[global] Instance result_bind : MBind result := λ A B k r,
  match r with
  | Ok a => k a
  | Raise e => Raise e
  end.

(** A [for] loop whose body may raise: the first exception ends the loop. *)
Fixpoint for_each {A S} (body : S → A → result S) (s : S) (xs : list A)
  : result S :=
  match xs with
  | [] => Ok s
  | x :: xs' => s' ← body s x; for_each body s' xs'
  end.

(** Closed equations are settled by evaluation: the two sides are compared
    by the virtual machine when the proof is checked. *)
Ltac by_evaluation :=
  lazymatch goal with
  | |- ?lhs = ?rhs => vm_cast_no_check (@eq_refl _ rhs)
  end.

(** ** Python's [str] and [list] operations used by the program *)

Module Py.

(** [ch.isspace()] on code points below 256. *)
Definition isspace (c : ascii) : bool :=
  let n := Z.of_N (Ascii.N_of_ascii c) in
  ((9 <=? n) && (n <=? 13)) || ((28 <=? n) && (n <=? 32))
  || (n =? 133) || (n =? 160).

(** [s.lstrip()], [s.rstrip()], [s.strip()]. *)
Fixpoint lstrip (s : string) : string :=
  match s with
  | EmptyString => EmptyString
  | String c s' => if isspace c then lstrip s' else s
  end.

Fixpoint rstrip (s : string) : string :=
  match s with
  | EmptyString => EmptyString
  | String c s' =>
      match rstrip s' with
      | EmptyString => if isspace c then EmptyString else String c EmptyString
      | r => String c r
      end
  end.

Definition strip (s : string) : string := rstrip (lstrip s).

(** [s.split(sep)] for a separator of one character. *)
Fixpoint split (sep : ascii) (s : string) : list string :=
  match s with
  | EmptyString => [EmptyString]
  | String c s' =>
      if Ascii.eqb c sep then EmptyString :: split sep s'
      else match split sep s' with
           | [] => [String c EmptyString]
           | seg :: segs => String c seg :: segs
           end
  end.

(** [c in s] for a character [c]. *)
Fixpoint contains_char (c : ascii) (s : string) : bool :=
  match s with
  | EmptyString => false
  | String a s' => Ascii.eqb a c || contains_char c s'
  end.

(** [s.startswith(p)]. *)
Fixpoint startswith (p s : string) : bool :=
  match p, s with
  | EmptyString, _ => true
  | String _ _, EmptyString => false
  | String a p', String b s' => Ascii.eqb a b && startswith p' s'
  end.

(** [sub in s]. *)
Fixpoint contains (sub s : string) : bool :=
  startswith sub s ||
  match s with
  | EmptyString => false
  | String _ s' => contains sub s'
  end.

(** [s.replace(c, '')] for a character [c]. *)
Fixpoint remove_char (c : ascii) (s : string) : string :=
  match s with
  | EmptyString => EmptyString
  | String a s' =>
      if Ascii.eqb a c then remove_char c s' else String a (remove_char c s')
  end.

(** [l[i]], with Python's negative indices and its [IndexError]. *)
Definition getitem {A} (l : list A) (i : Z) : result A :=
  let n := Z.of_nat (length l) in
  let j := if i <? 0 then i + n else i in
  if (j <? 0) || (n <=? j) then Raise IndexError
  else match l !! Z.to_nat j with
       | Some x => Ok x
       | None => Raise IndexError
       end.

(** [d[k]], with its [KeyError]. *)
Definition dict_get {V} (d : gmap string V) (k : string) : result V :=
  match d !! k with
  | Some v => Ok v
  | None => Raise (KeyError k)
  end.

End Py.

(** ** Python's [float]: the values and [float(str)]

    A [float] is a binary64 number: a sign and a magnitude that is a dyadic
    rational, an infinity, or a NaN.  [float(s)] follows CPython's
    [PyFloat_FromString]: white space is stripped, underscores between digits
    are dropped, the decimal literal is read and rounded to the nearest
    binary64 (ties to even; too large a literal gives an infinity, it does
    not raise).  A literal of more than 10^9 digits, which CPython refuses,
    is outside the model. *)

Inductive pyfloat : Type :=
| Fin (neg : bool) (mag : Q)
| Inf (neg : bool)
| NaN.

(** The float [z.0] for an integer [z] below 2^53 in magnitude. *)
Definition flt (z : Z) : pyfloat := Fin (z <? 0) (inject_Z (Z.abs z)).

Module PyFloat.

Definition code (c : ascii) : Z := Z.of_N (Ascii.N_of_ascii c).

Definition is_digit (c : ascii) : bool := (48 <=? code c) && (code c <=? 57).

(** [Py_ISSPACE]: the white space of the C locale. *)
Definition c_isspace (c : ascii) : bool :=
  ((9 <=? code c) && (code c <=? 13)) || (code c =? 32).

(** [Py_TOLOWER]. *)
Definition to_lower (c : ascii) : ascii :=
  if (65 <=? code c) && (code c <=? 90)
  then Ascii.ascii_of_N (Z.to_N (code c + 32)) else c.

(** [_PyUnicode_TransformDecimalAndSpaceToASCII]: an ASCII string is left
    as it is; otherwise a white-space character from 127 on becomes a
    space and any other one becomes a question mark that ends the
    string. *)
Fixpoint is_ascii (s : string) : bool :=
  match s with
  | EmptyString => true
  | String c s' => (code c <? 128) && is_ascii s'
  end.

Fixpoint transform (s : string) : string :=
  match s with
  | EmptyString => EmptyString
  | String c s' =>
      if code c <? 127 then String c (transform s')
      else if Py.isspace c then String " " (transform s')
      else "?"
  end.

Definition to_ascii (s : string) : string :=
  if is_ascii s then s else transform s.

Fixpoint c_lstrip (s : string) : string :=
  match s with
  | EmptyString => EmptyString
  | String c s' => if c_isspace c then c_lstrip s' else s
  end.

Fixpoint c_rstrip (s : string) : string :=
  match s with
  | EmptyString => EmptyString
  | String c s' =>
      match c_rstrip s' with
      | EmptyString =>
          if c_isspace c then EmptyString else String c EmptyString
      | r => String c r
      end
  end.

(** [_Py_string_to_number_with_underscores]: an underscore is dropped
    when it stands between two digits and is an error anywhere else. *)
Fixpoint drop_underscores (prev : ascii) (s : string) : option string :=
  match s with
  | EmptyString => if Ascii.eqb prev "_" then None else Some EmptyString
  | String c s' =>
      if Ascii.eqb c "_" then
        if is_digit prev then drop_underscores c s' else None
      else if Ascii.eqb prev "_" && negb (is_digit c) then None
      else String c <$> drop_underscores c s'
  end.

(** A run of decimal digits: its value on top of [acc], its length and
    what follows it. *)
Fixpoint digits (acc : Z) (s : string) : Z * Z * string :=
  match s with
  | EmptyString => (acc, 0, EmptyString)
  | String c s' =>
      if is_digit c then
        let '(v, n, r) := digits (10 * acc + (code c - 48)) s' in
        (v, n + 1, r)
      else (acc, 0, s)
  end.

Definition sign (s : string) : bool * string :=
  match s with
  | String "-" s' => (true, s')
  | String "+" s' => (false, s')
  | _ => (false, s)
  end.

(** Rounding a positive rational to the nearest binary64, ties to even. *)
Definition pow2 (e : Z) : Q := Qpower (2 # 1) e.

Definition floor_log2 (q : Q) : Z :=
  let k := Z.log2 (Qnum q) - Z.log2 (Zpos (Qden q)) in
  if Qle_bool (pow2 k) q then k else k - 1.

Definition round_half_even (q : Q) : Z :=
  let f := Qfloor q in
  match Qcompare (q - inject_Z f) (1 # 2) with
  | Lt => f
  | Gt => f + 1
  | Eq => if Z.even f then f else f + 1
  end.

Definition nearest (neg : bool) (q : Q) : pyfloat :=
  if Qeq_bool q 0 then Fin neg 0
  else
    let e := Z.max (floor_log2 q) (-1022) in
    let quantum := pow2 (e - 52) in
    let v := Qred (inject_Z (round_half_even (q / quantum)) * quantum) in
    if Qle_bool (pow2 1024) v then Inf neg else Fin neg v.

(** [_Py_dg_strtod]: sign, digits with an optional point, optional
    exponent.  The answer is the float and the text left unread; [None]
    when no number starts the text.  An exponent without a digit is left
    unread. *)
Definition strtod (s : string) : option (pyfloat * string) :=
  let '(neg, s1) := sign s in
  let '(ip, ni, s2) := digits 0 s1 in
  let '(m, nf, s3) :=
    match s2 with
    | String "." s2' => digits ip s2'
    | _ => (ip, 0, s2)
    end in
  if ni + nf =? 0 then None
  else
    let '(e, s4) :=
      match s3 with
      | String c s3' =>
          if Ascii.eqb (to_lower c) "e" then
            let '(eneg, s3'') := sign s3' in
            let '(ev, ne, r) := digits 0 s3'' in
            if ne =? 0 then (0, s3)
            else ((if eneg then - ev else ev), r)
          else (0, s3)
      | EmptyString => (0, s3)
      end in
    Some (nearest neg (inject_Z m * Qpower (10 # 1) (e - nf)), s4).

(** [case_insensitive_match]: [t] (in lower case) starts [s]; the answer
    is what follows it. *)
Fixpoint ci_match (t s : string) : option string :=
  match t, s with
  | EmptyString, _ => Some s
  | String _ _, EmptyString => None
  | String a t', String b s' =>
      if Ascii.eqb (to_lower b) a then ci_match t' s' else None
  end.

(** [_Py_parse_inf_or_nan]. *)
Definition parse_inf_or_nan (s : string) : option (pyfloat * string) :=
  let '(neg, s1) := sign s in
  match ci_match "inf" s1 with
  | Some s2 =>
      match ci_match "inity" s2 with
      | Some s3 => Some (Inf neg, s3)
      | None => Some (Inf neg, s2)
      end
  | None =>
      match ci_match "nan" s1 with
      | Some s2 => Some (NaN, s2)
      | None => None
      end
  end.

(** [float_from_string_inner]: the whole text has to be read. *)
Definition from_string_inner (s : string) : option pyfloat :=
  match strtod s with
  | Some (x, EmptyString) => Some x
  | Some _ => None
  | None =>
      match parse_inf_or_nan s with
      | Some (x, EmptyString) => Some x
      | _ => None
      end
  end.

(** [PyFloat_FromString]. *)
Definition parse (s : string) : option pyfloat :=
  match c_rstrip (c_lstrip (to_ascii s)) with
  | EmptyString => None
  | t =>
      if Py.contains_char "_" t
      then drop_underscores "000" t ≫= from_string_inner
      else from_string_inner t
  end.

End PyFloat.

(** [float(s)]. *)
Definition float (s : string) : result pyfloat :=
  match PyFloat.parse s with
  | Some x => Ok x
  | None => Raise (ValueError s)
  end.

(** ** The program *)

(** Command used to access pwrstat. *)
Definition STAT_COMMAND : list string := ["pwrstat"; "-status"].

(** Which pwrstat results to use as tags and values. *)
Definition IMPORTANT_PWRSTAT_TAG_KEYS : list string :=
  ["Model Name"; "Firmware Number"; "Rating Voltage"; "Rating Power"].

Definition IMPORTANT_PWRSTAT_VALUE_KEYS : list string :=
  ["State"; "Utility Voltage"; "Output Voltage"; "Battery Capacity";
   "Remaining Runtime"; "Load"].

(** [lambda x: 0.0 if x == 'Normal' else 1.0]. *)
Definition state_transform (x : string) : result pyfloat :=
  Ok (if String.eqb x "Normal" then flt 0 else flt 1).

(** The transform of 'Battery Capacity' is [lambda x: float(x)]. *)
Definition IMPORTANT_PWRSTAT_STAT_KEYS_TRANSFORMS
  : gmap string (string → result pyfloat) :=
  <["State" := state_transform]> (<["Battery Capacity" := float]> ∅).

(** *** [parse_pwrstat] *)

Definition newline : ascii := "010".

(** The label and the value that one report line gives (the body of the
    loop of [parse_pwrstat] from [line.split('.')] on). *)
Definition line_entry (line : string) : result (string * string) :=
  let line_split := Py.split "." line in
  seg0 ← Py.getitem line_split 0;
  let key := Py.strip seg0 in
  value ← (if Py.contains "Remaining Runtime" line
           then seg ← Py.getitem line_split (-2); Ok (Py.strip seg)
           else seg ← Py.getitem line_split (-1); Ok (Py.strip seg));
  Ok (key, value).

(** One turn of the loop; the two [continue]s leave the dictionary as it
    is. *)
Definition parse_line (pwrstat_dict : gmap string string) (line : string)
  : result (gmap string string) :=
  if String.eqb line "" then Ok pwrstat_dict
  else if negb (Py.contains_char "." line) then Ok pwrstat_dict
  else
    kv ← line_entry line;
    Ok (<[kv.1 := kv.2]> pwrstat_dict).

Definition parse_pwrstat (out : string) : result (gmap string string) :=
  let lines := drop 3 (Py.split newline out) in
  for_each parse_line ∅ lines.

(** *** [write_influxdb] *)

Record json_body : Type := JsonBody {
  measurement : string;
  tags : gmap string string;
  fields : gmap string pyfloat;
  time : option string
}.

Inductive event : Type :=
| LogDebug (body : json_body)
| LogInfo (msg : string)
| LogError (msg : string)
| WritePoints (points : list json_body)
| CreateDatabase (name : string)
| Popen (cmd : list string)
| Sleep (seconds : pyfloat).

(** A computation that acts on the outside world: the events it caused, in
    order, and how it ended. *)
Definition io (A : Type) : Type := list event * result A.

#[global] Instance io_ret : MRet io := λ A a, ([], Ok a).
#[global] Instance io_bind : MBind io := λ A B k m,
  match m with
  | (t, Ok a) => let '(t', r) := k a in ((t ++ t')%list, r)
  | (t, Raise e) => (t, Raise e)
  end.

Definition emit (e : event) : io unit := ([e], Ok tt).
Definition lift {A} (r : result A) : io A := ([], r).

(** The first loop of [write_influxdb], one tag. *)
Definition tag_step (pwrstat_dict : gmap string string) (body : json_body)
  (tag : string) : result json_body :=
  let key := Py.remove_char " " tag in
  raw ← Py.dict_get pwrstat_dict tag;
  value ← Py.getitem (Py.split " " raw) 0;
  Ok (JsonBody (measurement body) (<[key := value]> (tags body))
        (fields body) (time body)).

(** The second loop of [write_influxdb], one value. *)
Definition stat_step (pwrstat_dict : gmap string string) (body : json_body)
  (stat_key : string) : result json_body :=
  let key := Py.remove_char " " stat_key in
  raw ← Py.dict_get pwrstat_dict stat_key;
  token ← Py.getitem (Py.split " " raw) 0;
  value ← match IMPORTANT_PWRSTAT_STAT_KEYS_TRANSFORMS !! stat_key with
          | Some transform => transform token
          | None => float token
          end;
  Ok (JsonBody (measurement body) (tags body)
        (<[key := value]> (fields body)) (time body)).

(** [write_influxdb] up to its two loops: the point without its time. *)
Definition field_mapper (series_name : string)
  (pwrstat_dict : gmap string string) : result json_body :=
  let body := JsonBody series_name ∅ ∅ None in
  body ← for_each (tag_step pwrstat_dict) body IMPORTANT_PWRSTAT_TAG_KEYS;
  for_each (stat_step pwrstat_dict) body IMPORTANT_PWRSTAT_VALUE_KEYS.

(** What the outside world answers during one call of [write_influxdb]:
    [datetime.utcnow().isoformat()] and [client.write_points]. *)
Record sink_answer : Type := SinkAnswer {
  utcnow : string;
  write_points : result bool
}.

Definition write_influxdb (client : sink_answer) (series_name : string)
  (pwrstat_dict : gmap string string) (dry_run : bool) : io unit :=
  body ← lift (field_mapper series_name pwrstat_dict);
  let ts := utcnow client in
  let body := JsonBody (measurement body) (tags body) (fields body) (Some ts) in
  emit (LogDebug body);;
  if dry_run then mret tt
  else
    emit (WritePoints [body]);;
    success ← lift (write_points client);
    if negb success then emit (LogError "Error writing to InfluxDB!")
    else mret tt.

(** *** [run_scrape] *)

Record args : Type := Args {
  series : string;
  interval : pyfloat;
  dry_run : bool
}.

(** What the outside world answers during one turn of the loop: the exit
    code of the command, its decoded output and error text, the answers
    to [write_influxdb], and how the sleep itself ends once its length is
    taken. *)
Record cycle : Type := Cycle {
  returncode : Z;
  out_decode : result string;
  err_decode : result string;
  client : sink_answer;
  slept : result unit
}.

(** [time.sleep(secs)] before it sleeps (CPython 3.11, a 64-bit machine):
    the seconds are multiplied by 10^9 as floats, rounded away from zero
    to a whole number of nanoseconds that has to fit 64 bits, and a
    negative length is refused.  The answer is the length in nanoseconds.
    (At 2^63 exactly the conversion to 64 bits wraps to -2^63.) *)
Definition sleep_length (secs : pyfloat) : result Z :=
  match secs with
  | NaN => Raise (ValueError "Invalid value NaN (not a number)")
  | Inf _ => Raise OverflowError
  | Fin neg mag =>
      match PyFloat.nearest neg (mag * (1000000000 # 1))%Q with
      | Fin _ d =>
          let n := if neg then - Qceiling d else Qceiling d in
          if (- 2 ^ 63 <=? n) && (n <=? 2 ^ 63) then
            let ns := if n =? 2 ^ 63 then - 2 ^ 63 else n in
            if ns <? 0
            then Raise (ValueError "sleep length must be non-negative")
            else Ok ns
          else Raise OverflowError
      | _ => Raise OverflowError
      end
  end.

(** How [time.sleep(secs)] ends: by the exception of a refused length, or
    as the world has the sleep end. *)
Definition sleep_result (secs : pyfloat) (answer : result unit)
  : result unit :=
  _ ← sleep_length secs; answer.

(** [time.sleep(secs)]: the call, then its end. *)
Definition time_sleep (secs : pyfloat) (answer : result unit) : io unit :=
  emit (Sleep secs);;
  lift (sleep_result secs answer).

Inductive control : Type := Continue | Return.

(** The text of [str(STAT_COMMAND)]. *)
Definition STAT_COMMAND_str : string := "['pwrstat', '-status']".

(** The body of the [while True]. *)
Definition scrape_cycle (a : args) (c : cycle) : io control :=
  emit (Popen STAT_COMMAND);;
  if negb (returncode c =? 0) then
    err ← lift (err_decode c);
    emit (LogError ("Error executing " ++ STAT_COMMAND_str ++ ": "
                    ++ Py.strip err));;
    mret Return
  else
    out ← lift (out_decode c);
    pwrstat_dict ← lift (parse_pwrstat out);
    write_influxdb (client c) (series a) pwrstat_dict (dry_run a);;
    time_sleep (interval a) (slept c);;
    mret Continue.

(** How far the loop got on a finite prefix of the world's answers. *)
Inductive status : Type :=
| Returned
| Raised (e : exn)
| Running.

Fixpoint scrape_loop (a : args) (world : list cycle) : list event * status :=
  match world with
  | [] => ([], Running)
  | c :: world' =>
      match scrape_cycle a c with
      | (t, Raise e) => (t, Raised e)
      | (t, Ok Return) => (t, Returned)
      | (t, Ok Continue) =>
          let '(t', s) := scrape_loop a world' in ((t ++ t')%list, s)
      end
  end.

Record influx_config : Type := InfluxConfig {
  db : string;
  admin : bool
}.

(** [run_scrape]; [ping] is the answer of [client.ping()] and [client_str]
    the text of [str(client)]. *)
Definition run_scrape (a : args) (config : influx_config)
  (ping client_str : string) (world : list cycle) : list event * status :=
  if String.eqb ping "" then ([LogError "Error connecting to InfluxDB."], Returned)
  else
    let start :=
      ([LogInfo ("Connected to InfluxDB: " ++ ping)]
       ++ (if admin config then [CreateDatabase (db config)] else [])
       ++ [LogInfo ("InfluxDB URL: " ++ client_str);
           LogInfo "Starting up scraper..."])%list in
    let '(t, s) := scrape_loop a world in ((start ++ t)%list, s).

(** ** Auxiliary definitions and sample data *)

(** The text before the first space of a raw value. *)
Definition first_token (raw : string) : string :=
  default "" (head (Py.split " " raw)).

(** The label of a line: its text before the first period, stripped. *)
Definition label (line : string) : string :=
  Py.strip (default "" (head (Py.split "." line))).

(** Sample reports of [pwrstat -status], cut down to a header of three
    lines and lines with periods. *)
Definition short_report : string :=
"
The UPS information shows as following:

State........................ Normal
Load......................... 108 Watt(12 %)".

Definition repeated_report : string :=
"
The UPS information shows as following:

State........................ Normal
State........................ Power Failure".

(** What the second loop does to the first token of a raw value. *)
Definition coerce (stat_key token : string) : result pyfloat :=
  match IMPORTANT_PWRSTAT_STAT_KEYS_TRANSFORMS !! stat_key with
  | Some transform => transform token
  | None => float token
  end.

(** A value label is accepted when it is present and its first token is
    coerced without an exception. *)
Definition accepted (d : gmap string string) (k : string) : Prop :=
  ∃ raw x, d !! k = Some raw ∧ coerce k (first_token raw) = Ok x.

(** The point that [write_influxdb] logs and writes. *)
Definition stamped (body : json_body) (ts : string) : json_body :=
  JsonBody (measurement body) (tags body) (fields body) (Some ts).

(** The labels that [write_influxdb] looks up, in the order it does. *)
Definition required_labels : list string :=
  (IMPORTANT_PWRSTAT_TAG_KEYS ++ IMPORTANT_PWRSTAT_VALUE_KEYS)%list.

(** The dictionary of the spec's example, and two variants of it. *)
Definition fixture : gmap string string :=
  list_to_map
    [("Model Name", "ModelX 1000"); ("Firmware Number", "1.2");
     ("Rating Voltage", "120 V"); ("Rating Power", "500 Watt");
     ("State", "Normal"); ("Utility Voltage", "120 V");
     ("Output Voltage", "120 V"); ("Battery Capacity", "100 Percent");
     ("Remaining Runtime", "45 min"); ("Load", "30 Watt(20.0 %)")].

Definition partial_status : gmap string string :=
  <["Utility Voltage" := "n/a"]> (delete "Load" fixture).

Definition unreadable_load : gmap string string :=
  <["Load" := "n/a Watt"]> fixture.

(** The calls of [client.write_points] among the events. *)
Definition is_write (e : event) : bool :=
  match e with
  | WritePoints _ => true
  | _ => false
  end.

(** A whole report, the dictionary it parses to and the point it maps
    to. *)
Definition full_report : string :=
"
The UPS information shows as following:

    Properties:
        Model Name................... CP1500PFCLCD
        Firmware Number.............. CR01505B4821
        Rating Voltage............... 120 V
        Rating Power................. 900 Watt

    Current UPS status:
        State........................ Normal
        Power Supply by.............. Utility Power
        Utility Voltage.............. 121 V
        Output Voltage............... 121 V
        Battery Capacity............. 100 %
        Remaining Runtime............ 54 min.
        Load......................... 108 Watt(12 %)
        Line Interaction............. None
        Test Result.................. Passed at 2020/02/18 12:05:12
        Last Power Event............. Blackout at 2020/02/18 10:30:19 for 4 sec.
".

Definition full_status : gmap string string :=
  list_to_map
    [("Model Name", "CP1500PFCLCD"); ("Firmware Number", "CR01505B4821");
     ("Rating Voltage", "120 V"); ("Rating Power", "900 Watt");
     ("State", "Normal"); ("Power Supply by", "Utility Power");
     ("Utility Voltage", "121 V"); ("Output Voltage", "121 V");
     ("Battery Capacity", "100 %"); ("Remaining Runtime", "54 min");
     ("Load", "108 Watt(12 %)"); ("Line Interaction", "None");
     ("Test Result", "Passed at 2020/02/18 12:05:12");
     ("Last Power Event", "")].

Definition full_point : json_body :=
  JsonBody "ups"
    (list_to_map
       [("ModelName", "CP1500PFCLCD"); ("FirmwareNumber", "CR01505B4821");
        ("RatingVoltage", "120"); ("RatingPower", "900")])
    (list_to_map
       [("State", flt 0); ("UtilityVoltage", flt 121);
        ("OutputVoltage", flt 121); ("BatteryCapacity", flt 100);
        ("RemainingRuntime", flt 54); ("Load", flt 108)])
    None.

(** A line that [parse_pwrstat] does not skip: it holds a period (and so
    is not empty). *)
Definition dotted (line : string) : bool := Py.contains_char "." line.

(** A text as [parse_pwrstat] stores it: stripped, and without a period. *)
Definition clean (s : string) : Prop :=
  Py.contains_char "." s = false ∧ Py.strip s = s.

(** The point without its time that the spec's example maps to. *)
Definition fixture_point (series_name : string) : json_body :=
  JsonBody series_name
    (list_to_map
       [("ModelName", "ModelX"); ("FirmwareNumber", "1.2");
        ("RatingVoltage", "120"); ("RatingPower", "500")])
    (list_to_map
       [("State", flt 0); ("UtilityVoltage", flt 120);
        ("OutputVoltage", flt 120); ("BatteryCapacity", flt 100);
        ("RemainingRuntime", flt 45); ("Load", flt 30)])
    None.

(** Counting the events of one kind in a trace. *)
Definition is_popen (e : event) : bool :=
  match e with
  | Popen _ => true
  | _ => false
  end.

Definition is_sleep (e : event) : bool :=
  match e with
  | Sleep _ => true
  | _ => false
  end.

Definition count (p : event → bool) (t : list event) : nat :=
  length (List.filter p t).

(** The events that a turn of the loop can cause. *)
Definition loop_event (e : event) : bool :=
  match e with
  | Popen _ | LogDebug _ | WritePoints _ | LogError _ | Sleep _ => true
  | LogInfo _ | CreateDatabase _ => false
  end.

(** *** [setup_logging]

    The root logger as far as the program uses it: its level and its
    handlers.  [logfile_path] is what a caller passes: [None], [True]
    (all that the [store_true] option [--log-file] of [main] can give
    besides [None]) or a text.  [logging.FileHandler] refuses what is not
    a path with a [TypeError]; for a text it opens the file, which can
    raise, and keeps its absolute path: that is the world's answer
    [opened].  An exception leaves the logger as it was. *)
Inductive handler : Type :=
| FileHandler (baseFilename : string)
| StreamHandler.

Record logger_state : Type := LoggerState {
  level : Z;
  handlers : list handler
}.

Inductive logfile_arg : Type :=
| ArgNone
| ArgTrue
| ArgStr (path : string).

(** [if logfile_path:]. *)
Definition truthy (logfile_path : logfile_arg) : bool :=
  match logfile_path with
  | ArgNone => false
  | ArgTrue => true
  | ArgStr path => negb (String.eqb path "")
  end.

(** [logging.FileHandler(logfile_path)]. *)
Definition file_handler (logfile_path : logfile_arg) (opened : result string)
  : result handler :=
  match logfile_path with
  | ArgStr _ => baseFilename ← opened; Ok (FileHandler baseFilename)
  | _ =>
      Raise (TypeError "expected str, bytes or os.PathLike object, not bool")
  end.

Definition setup_logging (logfile_path : logfile_arg) (verbosity : Z)
  (opened : result string) (root_logger : logger_state)
  : result logger_state :=
  with_file ← (if truthy logfile_path then
                 h ← file_handler logfile_path opened;
                 Ok (handlers root_logger ++ [h])%list
               else Ok (handlers root_logger));
  Ok (LoggerState (Z.max (2 - verbosity) 0 * 10)
        (with_file ++ [StreamHandler])%list).

(** [Logger.isEnabledFor] on the root logger (nothing disabled): the
    severity is at least the level of the logger. *)
Definition is_enabled_for (root_logger : logger_state) (severity : Z) : bool :=
  level root_logger <=? severity.

(** The severities of [logging]. *)
Definition DEBUG : Z := 10.
Definition INFO : Z := 20.
Definition ERROR : Z := 40.




(** How a turn that got as far as [time.sleep] ends. *)
Definition after_sleep (a : args) (c : cycle) : result control :=
  _ ← sleep_result (interval a) (slept c); Ok Continue.

(** * Properties *)

(** ** Evaluation on samples *)

Example split_dots : Py.split "." "a.b..c" = ["a"; "b"; ""; "c"].
Proof. reflexivity. Qed.

Example split_empty : Py.split "." "" = [""].
Proof. reflexivity. Qed.

Example strip_both : Py.strip "  a b  " = "a b".
Proof. reflexivity. Qed.

Example getitem_neg : Py.getitem ["a"; "b"; "c"] (-2) = Ok "b".
Proof. reflexivity. Qed.

Example getitem_out : Py.getitem ["a"] (-2) = Raise IndexError.
Proof. reflexivity. Qed.

Example float_120 : float "120" = Ok (flt 120).
Proof. vm_compute. reflexivity. Qed.

Example float_spaces : float " -2.50e1 " = Ok (flt (-25)).
Proof. vm_compute. reflexivity. Qed.

Example float_tenth :
  float "0.1" = Ok (Fin false (3602879701896397 # 36028797018963968)).
Proof. vm_compute. reflexivity. Qed.

Example float_underscore : float "1_000" = Ok (flt 1000).
Proof. vm_compute. reflexivity. Qed.

Example float_huge : float "1e400" = Ok (Inf false).
Proof. vm_compute. reflexivity. Qed.

Example float_inf : float "-Infinity" = Ok (Inf true).
Proof. vm_compute. reflexivity. Qed.

Example float_word : float "Normal" = Raise (ValueError "Normal").
Proof. vm_compute. reflexivity. Qed.

Example float_empty : float "" = Raise (ValueError "").
Proof. vm_compute. reflexivity. Qed.

Example float_exp_only : float "1e" = Raise (ValueError "1e").
Proof. vm_compute. reflexivity. Qed.

(** ** Indexing and splitting *)

Section Indexing.
Context {A : Type}.
Implicit Types (l : list A) (i : Z).

Lemma getitem_in_range l i :
  - Z.of_nat (length l) <= i < Z.of_nat (length l) →
  ∃ x, Py.getitem l i = Ok x.
Proof.
  intros Hi. unfold Py.getitem.
  destruct (i <? 0) eqn:Hneg.
  - apply Z.ltb_lt in Hneg.
    replace ((i + Z.of_nat (length l) <? 0)
             || (Z.of_nat (length l) <=? i + Z.of_nat (length l)))
      with false by (symmetry; apply orb_false_iff; split;
                     [apply Z.ltb_ge | apply Z.leb_gt]; lia).
    destruct (l !! Z.to_nat (i + Z.of_nat (length l))) as [x|] eqn:Hx;
      [by exists x|].
    apply lookup_ge_None in Hx. lia.
  - apply Z.ltb_ge in Hneg.
    replace ((i <? 0) || (Z.of_nat (length l) <=? i))
      with false by (symmetry; apply orb_false_iff; split;
                     [apply Z.ltb_ge | apply Z.leb_gt]; lia).
    destruct (l !! Z.to_nat i) as [x|] eqn:Hx; [by exists x|].
    apply lookup_ge_None in Hx. lia.
Qed.

Lemma getitem_first x l : Py.getitem (x :: l) 0 = Ok x.
Proof.
  unfold Py.getitem. cbn [length].
  replace ((0 <? 0) || (Z.of_nat (S (length l)) <=? 0)) with false
    by (symmetry; apply orb_false_iff; split;
        [apply Z.ltb_ge | apply Z.leb_gt]; lia).
  reflexivity.
Qed.

Lemma getitem_out_of_range l i :
  i < - Z.of_nat (length l) ∨ Z.of_nat (length l) <= i →
  Py.getitem l i = Raise IndexError.
Proof.
  intros Hi. unfold Py.getitem.
  destruct (i <? 0) eqn:Hneg.
  - apply Z.ltb_lt in Hneg.
    replace (i + Z.of_nat (length l) <? 0) with true
      by (symmetry; apply Z.ltb_lt; lia). reflexivity.
  - apply Z.ltb_ge in Hneg.
    replace (Z.of_nat (length l) <=? i) with true
      by (symmetry; apply Z.leb_le; lia).
    by rewrite orb_true_r.
Qed.
End Indexing.

Lemma split_cons sep s : ∃ seg segs, Py.split sep s = seg :: segs.
Proof.
  induction s as [|c s IH]; cbn [Py.split]; [by eexists _, _|].
  destruct (Ascii.eqb c sep); [by eexists _, _|].
  destruct IH as (seg & segs & ->). by eexists _, _.
Qed.

(** A text that holds the separator splits into two segments or more. *)
Lemma split_length_contains sep s :
  Py.contains_char sep s = true → (2 ≤ length (Py.split sep s))%nat.
Proof.
  induction s as [|c s IH]; cbn [Py.split Py.contains_char]; [done|].
  destruct (Ascii.eqb c sep); cbn [orb].
  - intros _. destruct (split_cons sep s) as (seg & segs & ->).
    cbn [length]. lia.
  - intros H. specialize (IH H).
    destruct (Py.split sep s) as [|seg segs]; cbn [length] in *; lia.
Qed.

Lemma getitem_first_token raw :
  Py.getitem (Py.split " " raw) 0 = Ok (first_token raw).
Proof.
  unfold first_token. destruct (split_cons " " raw) as (seg & segs & ->).
  apply getitem_first.
Qed.

(** ** A stripped first segment is a piece of its line *)

Lemma append_nil (t : string) : "" ++ t = t.
Proof. reflexivity. Qed.

Lemma append_cons c (s t : string) : String c s ++ t = String c (s ++ t).
Proof. reflexivity. Qed.

Lemma append_assoc (a b c : string) : (a ++ b) ++ c = a ++ (b ++ c).
Proof.
  induction a as [|x a IH]; [done|]. by rewrite !append_cons, IH.
Qed.

Lemma split_first_prefix sep s seg segs :
  Py.split sep s = seg :: segs → ∃ t, s = seg ++ t.
Proof.
  revert seg segs. induction s as [|c s IH]; cbn [Py.split]; intros seg segs.
  - intros [= <- <-]. by exists "".
  - destruct (Ascii.eqb c sep).
    + intros [= <- <-]. by eexists.
    + destruct (Py.split sep s) as [|seg' segs'] eqn:Hs.
      * intros [= <- <-]. by exists s.
      * intros [= <- <-]. destruct (IH _ _ eq_refl) as [t ->].
        by exists t.
Qed.

Lemma lstrip_suffix s : ∃ a, s = a ++ Py.lstrip s.
Proof.
  induction s as [|c s [a IH]]; cbn [Py.lstrip]; [by exists ""|].
  destruct (Py.isspace c); [|by exists ""].
  exists (String c a). by rewrite append_cons, <- IH.
Qed.

Lemma rstrip_prefix s : ∃ b, s = Py.rstrip s ++ b.
Proof.
  induction s as [|c s [b IH]]; cbn [Py.rstrip]; [by exists ""|].
  destruct (Py.rstrip s) as [|c' r] eqn:Hr.
  - destruct (Py.isspace c); [by eexists|]. by exists s.
  - exists b. by rewrite append_cons, <- IH.
Qed.

Lemma startswith_app sub t : Py.startswith sub (sub ++ t) = true.
Proof.
  induction sub as [|c sub IH]; [by destruct t|].
  rewrite append_cons. cbn [Py.startswith]. by rewrite Ascii.eqb_refl, IH.
Qed.

Lemma contains_here sub t : Py.contains sub (sub ++ t) = true.
Proof.
  pose proof (startswith_app sub t) as H.
  destruct (sub ++ t); cbn [Py.contains]; by rewrite H.
Qed.

Lemma contains_app sub a b : Py.contains sub (a ++ sub ++ b) = true.
Proof.
  induction a as [|c a IH]; [rewrite append_nil; apply contains_here|].
  rewrite append_cons. cbn [Py.contains]. rewrite IH. apply orb_true_r.
Qed.

Lemma contains_strip_first sep line seg segs :
  Py.split sep line = seg :: segs →
  Py.contains (Py.strip seg) line = true.
Proof.
  intros Hs. destruct (split_first_prefix _ _ _ _ Hs) as [t ->].
  destruct (lstrip_suffix seg) as [a Ha].
  destruct (rstrip_prefix (Py.lstrip seg)) as [b Hb].
  unfold Py.strip. rewrite Ha at 2. rewrite Hb at 2.
  rewrite !append_assoc. apply contains_app.
Qed.

(** ** What one line gives *)

(** A line that holds a period has a first, a second-to-last and a last
    segment, and [line_entry] picks among them by looking for the words
    "Remaining Runtime" anywhere in the line. *)
Lemma line_entry_spec line :
  Py.contains_char "." line = true →
  ∃ first penult last,
    Py.getitem (Py.split "." line) 0 = Ok first
    ∧ Py.getitem (Py.split "." line) (-2) = Ok penult
    ∧ Py.getitem (Py.split "." line) (-1) = Ok last
    ∧ line_entry line =
        Ok (Py.strip first,
            if Py.contains "Remaining Runtime" line
            then Py.strip penult else Py.strip last).
Proof.
  intros Hdot. pose proof (split_length_contains _ _ Hdot) as Hlen.
  destruct (getitem_in_range (Py.split "." line) 0) as [first H0]; [lia|].
  destruct (getitem_in_range (Py.split "." line) (-2)) as [penult H2]; [lia|].
  destruct (getitem_in_range (Py.split "." line) (-1)) as [last H1]; [lia|].
  exists first, penult, last. repeat split; try done.
  unfold line_entry. rewrite H0. cbn [mbind result_bind].
  destruct (Py.contains "Remaining Runtime" line).
  - by rewrite H2.
  - by rewrite H1.
Qed.

Lemma parse_line_ok d line : ∃ d', parse_line d line = Ok d'.
Proof.
  unfold parse_line. destruct (String.eqb line ""); [by eexists|].
  destruct (Py.contains_char "." line) eqn:Hdot; cbn [negb]; [|by eexists].
  destruct (line_entry_spec _ Hdot) as (? & ? & ? & _ & _ & _ & ->).
  by eexists.
Qed.

Lemma for_each_parse_line_ok lines d :
  ∃ d', for_each parse_line d lines = Ok d'.
Proof.
  revert d. induction lines as [|line lines IH]; intros d; cbn [for_each];
    [by eexists|].
  destruct (parse_line_ok d line) as [d' ->]. apply IH.
Qed.

Lemma parse_pwrstat_ok out : ∃ d, parse_pwrstat out = Ok d.
Proof. apply for_each_parse_line_ok. Qed.

(** ** The keys of the parsed dictionary *)

Lemma line_entry_label line :
  Py.contains_char "." line = true →
  ∃ value, line_entry line = Ok (label line, value).
Proof.
  intros Hdot.
  destruct (line_entry_spec _ Hdot) as (first & ? & ? & H0 & _ & _ & ->).
  unfold label. destruct (split_cons "." line) as (seg & segs & Hs).
  rewrite Hs, getitem_first in H0. injection H0 as <-. rewrite Hs.
  by eexists.
Qed.

Lemma parse_line_dotted d line :
  Py.contains_char "." line = true →
  ∃ value, parse_line d line = Ok (<[label line := value]> d).
Proof.
  intros Hdot. unfold parse_line.
  destruct line as [|c line]; [done|]. cbn [String.eqb].
  rewrite Hdot. cbn [negb].
  destruct (line_entry_label _ Hdot) as [value ->]. by exists value.
Qed.

Lemma for_each_parse_line_dom lines (d : gmap string string) :
  Forall (λ line, Py.contains_char "." line = true) lines →
  ∃ d', for_each parse_line d lines = Ok d'
        ∧ dom d' = dom d ∪ list_to_set (label <$> lines).
Proof.
  intros Hall. revert d.
  induction Hall as [|line lines Hdot _ IH]; intros d; cbn [for_each].
  - exists d. split; [done|]. cbn [fmap list_fmap list_to_set].
    by rewrite (right_id_L ∅ (∪)).
  - destruct (parse_line_dotted d line Hdot) as [value ->].
    cbn [mbind result_bind].
    destruct (IH (<[label line := value]> d)) as (d' & -> & Hdom).
    exists d'. split; [done|]. rewrite Hdom, dom_insert_L.
    cbn [fmap list_fmap list_to_set].
    by rewrite (comm_L (∪) {[label line]} (dom d)), (assoc_L (∪)).
Qed.

Lemma size_list_to_set_le (l : list string) :
  (size (list_to_set l : gset string) ≤ length l)%nat.
Proof.
  induction l as [|x l IH]; cbn [list_to_set length].
  - rewrite size_empty. lia.
  - rewrite size_union_alt, size_singleton.
    assert (size (list_to_set l ∖ {[x]} : gset string)
            ≤ size (list_to_set l : gset string))%nat
      by (by apply subseteq_size, subseteq_difference_l).
    lia.
Qed.

(** ** Claims on [parse_pwrstat] *)

(** C1, as the code has it.  On a line that holds a period the value is
    the second-to-last segment, stripped, when the words "Remaining
    Runtime" occur anywhere in the line, and the last segment, stripped,
    when they do not; a line whose label is "Remaining Runtime" is such a
    line, so its value is its second-to-last segment. *)
Theorem line_entry_value line :
  Py.contains_char "." line = true →
  ∃ first penult last,
    Py.getitem (Py.split "." line) 0 = Ok first
    ∧ Py.getitem (Py.split "." line) (-2) = Ok penult
    ∧ Py.getitem (Py.split "." line) (-1) = Ok last
    ∧ line_entry line =
        Ok (Py.strip first,
            if Py.contains "Remaining Runtime" line
            then Py.strip penult else Py.strip last)
    ∧ (Py.strip first = "Remaining Runtime" →
       line_entry line = Ok ("Remaining Runtime", Py.strip penult)).
Proof.
  intros Hdot.
  destruct (line_entry_spec _ Hdot) as (first & penult & last & H0 & H2 & H1 & He).
  exists first, penult, last. repeat split; try done.
  intros Hlabel. rewrite He.
  destruct (split_cons "." line) as (seg & segs & Hs).
  pose proof (contains_strip_first _ _ _ _ Hs) as Hin.
  rewrite Hs, getitem_first in H0. injection H0 as ->.
  by rewrite Hlabel in *; rewrite Hin.
Qed.

Lemma line_entry_value_witness :
  ∃ first penult last,
    Py.getitem (Py.split "." "Remaining Runtime............. 45 min.") 0
      = Ok first
    ∧ Py.getitem (Py.split "." "Remaining Runtime............. 45 min.") (-2)
      = Ok penult
    ∧ Py.getitem (Py.split "." "Remaining Runtime............. 45 min.") (-1)
      = Ok last
    ∧ line_entry "Remaining Runtime............. 45 min." =
        Ok (Py.strip first,
            if Py.contains "Remaining Runtime"
                 "Remaining Runtime............. 45 min."
            then Py.strip penult else Py.strip last)
    ∧ (Py.strip first = "Remaining Runtime" →
       line_entry "Remaining Runtime............. 45 min."
       = Ok ("Remaining Runtime", Py.strip penult)).
Proof.
  apply (line_entry_value "Remaining Runtime............. 45 min.").
  reflexivity.
Defined.

(** C1 as the spec words it fails: a line whose label is not "Remaining
    Runtime" but which holds those words further on still gets its
    second-to-last segment. *)
Lemma line_entry_other_label_counterexample :
  Py.contains_char "." "Test Result.......... Remaining Runtime 45 min. Passed"
    = true
  ∧ line_entry "Test Result.......... Remaining Runtime 45 min. Passed"
    = Ok ("Test Result", "Remaining Runtime 45 min")
  ∧ "Test Result" ≠ "Remaining Runtime"
  ∧ Py.getitem
      (Py.split "." "Test Result.......... Remaining Runtime 45 min. Passed")
      (-1) = Ok " Passed"
  ∧ "Remaining Runtime 45 min" ≠ Py.strip " Passed".
Proof. repeat split; try reflexivity; discriminate. Qed.

(** C10.  [parse_pwrstat] returns a dictionary on every text, and on every
    line it looks at that holds a period both [line_split[0]] and
    [line_split[-2]] are in range. *)
Theorem parse_pwrstat_total out :
  (∃ d, parse_pwrstat out = Ok d)
  ∧ Forall (λ line,
      Py.contains_char "." line = true →
      ∃ first penult,
        Py.getitem (Py.split "." line) 0 = Ok first
        ∧ Py.getitem (Py.split "." line) (-2) = Ok penult)
      (drop 3 (Py.split newline out)).
Proof.
  split; [apply parse_pwrstat_ok|].
  apply Forall_forall. intros line _ Hdot.
  destruct (line_entry_spec _ Hdot) as (first & penult & _ & H0 & H2 & _).
  by exists first, penult.
Qed.

(** C6, as the code has it.  After the three header lines, when every
    line holds a period, the keys of the dictionary are exactly the labels
    of the lines; it has at most as many entries as there are lines, and
    exactly as many when no label occurs twice. *)
Theorem parse_pwrstat_keys out h1 h2 h3 lines :
  Py.split newline out = h1 :: h2 :: h3 :: lines →
  Forall (λ line, Py.contains_char "." line = true) lines →
  ∃ d, parse_pwrstat out = Ok d
       ∧ dom d = list_to_set (label <$> lines)
       ∧ (size d ≤ length lines)%nat
       ∧ (NoDup (label <$> lines) → size d = length lines).
Proof.
  intros Hsplit Hall. unfold parse_pwrstat. rewrite Hsplit.
  change (drop 3 (h1 :: h2 :: h3 :: lines)) with lines.
  destruct (for_each_parse_line_dom lines ∅ Hall) as (d & -> & Hdom).
  rewrite dom_empty_L, (left_id_L ∅ (∪)) in Hdom.
  exists d. split; [done|]. split; [done|].
  rewrite <- (size_dom d), Hdom. split.
  - etrans; [apply size_list_to_set_le|]. by rewrite length_fmap.
  - intros Hnd. by rewrite size_list_to_set, length_fmap.
Qed.

Lemma parse_pwrstat_keys_witness :
  ∃ d, parse_pwrstat short_report = Ok d
       ∧ dom d = list_to_set
                   (label <$> ["State........................ Normal";
                               "Load......................... 108 Watt(12 %)"])
       ∧ (size d ≤ 2)%nat
       ∧ (NoDup (label <$> ["State........................ Normal";
                            "Load......................... 108 Watt(12 %)"]) →
          size d = 2%nat).
Proof.
  apply (parse_pwrstat_keys short_report ""
           "The UPS information shows as following:" "").
  - reflexivity.
  - repeat constructor.
Defined.

(** C6 as the spec words it fails: two well-formed lines with the same
    label leave one entry. *)
Lemma parse_pwrstat_repeated_label_counterexample :
  Py.split newline repeated_report =
    [""; "The UPS information shows as following:"; "";
     "State........................ Normal";
     "State........................ Power Failure"]
  ∧ Forall (λ line, line ≠ "" ∧ Py.contains_char "." line = true)
      ["State........................ Normal";
       "State........................ Power Failure"]
  ∧ parse_pwrstat repeated_report = Ok {["State" := "Power Failure"]}
  ∧ size ({["State" := "Power Failure"]} : gmap string string) = 1%nat.
Proof.
  split; [reflexivity|]. split; [by repeat constructor|].
  split; [by_evaluation|]. apply map_size_singleton.
Qed.

(** ** The two loops of [write_influxdb] *)

Lemma transforms_lookup k :
  IMPORTANT_PWRSTAT_STAT_KEYS_TRANSFORMS !! k =
    if decide (k = "State") then Some state_transform
    else if decide (k = "Battery Capacity") then Some float
    else None.
Proof.
  unfold IMPORTANT_PWRSTAT_STAT_KEYS_TRANSFORMS.
  rewrite !lookup_insert, lookup_empty.
  repeat case_decide; congruence.
Qed.

Lemma coerce_state token : coerce "State" token = state_transform token.
Proof. unfold coerce. by rewrite transforms_lookup. Qed.

Lemma coerce_float k token : k ≠ "State" → coerce k token = float token.
Proof.
  intros Hk. unfold coerce. rewrite transforms_lookup.
  repeat case_decide; done.
Qed.

Lemma float_raise token e : float token = Raise e → e = ValueError token.
Proof. unfold float. destruct (PyFloat.parse token); congruence. Qed.

Lemma coerce_raise k token e : coerce k token = Raise e → e = ValueError token.
Proof.
  destruct (decide (k = "State")) as [->|Hk].
  - rewrite coerce_state. discriminate.
  - rewrite coerce_float by done. apply float_raise.
Qed.

Lemma tag_step_unfold d body tag :
  tag_step d body tag =
    match d !! tag with
    | Some raw =>
        Ok (JsonBody (measurement body)
              (<[Py.remove_char " " tag := first_token raw]> (tags body))
              (fields body) (time body))
    | None => Raise (KeyError tag)
    end.
Proof.
  unfold tag_step, Py.dict_get. destruct (d !! tag) as [raw|]; [|done].
  cbn [mbind result_bind]. by rewrite getitem_first_token.
Qed.

Lemma stat_step_unfold d body stat_key :
  stat_step d body stat_key =
    match d !! stat_key with
    | Some raw =>
        match coerce stat_key (first_token raw) with
        | Ok value =>
            Ok (JsonBody (measurement body) (tags body)
                  (<[Py.remove_char " " stat_key := value]> (fields body))
                  (time body))
        | Raise e => Raise e
        end
    | None => Raise (KeyError stat_key)
    end.
Proof.
  unfold stat_step, Py.dict_get, coerce.
  destruct (d !! stat_key) as [raw|]; [|done].
  cbn [mbind result_bind]. by rewrite getitem_first_token.
Qed.

Section Loops.
Variable d : gmap string string.

Lemma for_each_tag_step_ok ls body :
  Forall (λ l, is_Some (d !! l)) ls →
  ∃ body', for_each (tag_step d) body ls = Ok body'.
Proof.
  intros Hall. revert body.
  induction Hall as [|l ls [raw Hl] _ IH]; intros body; cbn [for_each];
    [by eexists|].
  rewrite tag_step_unfold, Hl. cbn [mbind result_bind]. apply IH.
Qed.

Lemma for_each_tag_step_raise ls body e :
  for_each (tag_step d) body ls = Raise e →
  ∃ k, e = KeyError k ∧ k ∈ ls ∧ d !! k = None.
Proof.
  revert body. induction ls as [|l ls IH]; intros body; cbn [for_each];
    [done|].
  rewrite tag_step_unfold. destruct (d !! l) as [raw|] eqn:Hl;
    cbn [mbind result_bind].
  - intros H. destruct (IH _ H) as (k & -> & Hk & Hnone).
    exists k. by rewrite elem_of_cons; auto.
  - intros [= <-]. exists l. by rewrite elem_of_cons; auto.
Qed.

Lemma for_each_tag_step_missing ls body l :
  l ∈ ls → d !! l = None →
  ∃ k, for_each (tag_step d) body ls = Raise (KeyError k).
Proof.
  intros Hin Hnone.
  destruct (for_each (tag_step d) body ls) as [body'|e] eqn:H.
  - exfalso. revert body H.
    induction ls as [|l' ls IH]; intros body; [by apply elem_of_nil in Hin|].
    cbn [for_each]. rewrite tag_step_unfold.
    apply elem_of_cons in Hin as [<-|Hin].
    + by rewrite Hnone.
    + destruct (d !! l'); cbn [mbind result_bind]; [by apply IH|done].
  - destruct (for_each_tag_step_raise _ _ _ H) as (k & -> & _). by exists k.
Qed.

Lemma for_each_stat_step_ok ls body :
  Forall (accepted d) ls →
  ∃ body', for_each (stat_step d) body ls = Ok body'.
Proof.
  intros Hall. revert body.
  induction Hall as [|l ls (raw & x & Hl & Hx) _ IH]; intros body;
    cbn [for_each]; [by eexists|].
  rewrite stat_step_unfold, Hl, Hx. cbn [mbind result_bind]. apply IH.
Qed.

Lemma for_each_stat_step_app pre ls body :
  Forall (accepted d) pre →
  ∃ body', for_each (stat_step d) body (pre ++ ls)%list
           = for_each (stat_step d) body' ls.
Proof.
  intros Hall. revert body.
  induction Hall as [|l pre (raw & x & Hl & Hx) _ IH]; intros body;
    [by exists body|].
  cbn [app for_each]. rewrite stat_step_unfold, Hl, Hx.
  cbn [mbind result_bind]. apply IH.
Qed.

Lemma for_each_stat_step_raise ls body e :
  for_each (stat_step d) body ls = Raise e →
  (∃ k, e = KeyError k ∧ k ∈ ls ∧ d !! k = None)
  ∨ (∃ k raw, e = ValueError (first_token raw) ∧ k ∈ ls
              ∧ d !! k = Some raw
              ∧ coerce k (first_token raw) = Raise e).
Proof.
  revert body. induction ls as [|l ls IH]; intros body; cbn [for_each];
    [done|].
  rewrite stat_step_unfold. destruct (d !! l) as [raw|] eqn:Hl.
  - destruct (coerce l (first_token raw)) as [x|e'] eqn:Hx;
      cbn [mbind result_bind].
    + intros H. destruct (IH _ H) as [(k & -> & Hk & Hnone)
                                     |(k & raw' & -> & Hk & Hsome & Hc)].
      * left. exists k. by rewrite elem_of_cons; auto.
      * right. exists k, raw'. by rewrite elem_of_cons; auto.
    + intros [= <-]. right. exists l, raw.
      pose proof (coerce_raise _ _ _ Hx) as ->.
      rewrite elem_of_cons. repeat split; auto.
  - cbn [mbind result_bind]. intros [= <-]. left. exists l.
    by rewrite elem_of_cons; auto.
Qed.

Lemma for_each_stat_step_fails ls body l :
  l ∈ ls → ¬ accepted d l →
  ∃ e, for_each (stat_step d) body ls = Raise e.
Proof.
  intros Hin Hno. revert body.
  induction ls as [|l' ls IH]; intros body; [by apply elem_of_nil in Hin|].
  cbn [for_each]. rewrite stat_step_unfold.
  destruct (d !! l') as [raw|] eqn:Hl; [|by eexists].
  destruct (coerce l' (first_token raw)) as [x|e] eqn:Hx; [|by eexists].
  cbn [mbind result_bind].
  apply elem_of_cons in Hin as [->|Hin]; [|by apply IH].
  destruct Hno. by exists raw, x.
Qed.
End Loops.

(** ** [write_influxdb] and one turn of the loop, case by case *)

Lemma write_influxdb_unfold client series_name d dry_run :
  write_influxdb client series_name d dry_run =
    match field_mapper series_name d with
    | Raise e => ([], Raise e)
    | Ok body =>
        let body := stamped body (utcnow client) in
        if dry_run then ([LogDebug body], Ok tt)
        else match write_points client with
             | Raise e => ([LogDebug body; WritePoints [body]], Raise e)
             | Ok true => ([LogDebug body; WritePoints [body]], Ok tt)
             | Ok false =>
                 ([LogDebug body; WritePoints [body];
                   LogError "Error writing to InfluxDB!"], Ok tt)
             end
    end.
Proof.
  unfold write_influxdb, stamped.
  destruct (field_mapper series_name d) as [body|e]; [|reflexivity].
  destruct dry_run; [reflexivity|].
  destruct (write_points client) as [[]|e]; reflexivity.
Qed.

Lemma scrape_cycle_unfold a c :
  scrape_cycle a c =
    if negb (returncode c =? 0) then
      match err_decode c with
      | Raise e => ([Popen STAT_COMMAND], Raise e)
      | Ok err =>
          ([Popen STAT_COMMAND;
            LogError ("Error executing " ++ STAT_COMMAND_str ++ ": "
                      ++ Py.strip err)], Ok Return)
      end
    else
      match out_decode c with
      | Raise e => ([Popen STAT_COMMAND], Raise e)
      | Ok out =>
          match parse_pwrstat out with
          | Raise e => ([Popen STAT_COMMAND], Raise e)
          | Ok d =>
              match write_influxdb (client c) (series a) d (dry_run a) with
              | (t, Raise e) => (Popen STAT_COMMAND :: t, Raise e)
              | (t, Ok _) =>
                  (Popen STAT_COMMAND :: (t ++ [Sleep (interval a)])%list,
                   after_sleep a c)
              end
          end
      end.
Proof.
  unfold scrape_cycle. destruct (negb (returncode c =? 0)).
  - destruct (err_decode c); reflexivity.
  - destruct (out_decode c) as [out|e]; [|reflexivity].
    cbn [lift emit mbind io_bind].
    destruct (parse_pwrstat out) as [d|e]; [|reflexivity].
    cbn [lift emit mbind io_bind].
    destruct (write_influxdb (client c) (series a) d (dry_run a))
      as [t [[]|e]]; [|reflexivity].
    unfold after_sleep, time_sleep. cbn [lift emit mbind io_bind].
    destruct (sleep_result (interval a) (slept c)) as [[]|e]; reflexivity.
Qed.

(** ** Claims on the field mapping *)

(** C2.  On the fixture the two loops give the four tags and the six
    fields of the spec, whatever the series name. *)
Theorem field_mapper_fixture series_name :
  field_mapper series_name fixture =
    Ok (JsonBody series_name
          (list_to_map
             [("ModelName", "ModelX"); ("FirmwareNumber", "1.2");
              ("RatingVoltage", "120"); ("RatingPower", "500")])
          (list_to_map
             [("State", flt 0); ("UtilityVoltage", flt 120);
              ("OutputVoltage", flt 120); ("BatteryCapacity", flt 100);
              ("RemainingRuntime", flt 45); ("Load", flt 30)])
          None).
Proof. by_evaluation. Qed.

(** C5.  The transform registered for "State" gives 0.0 on "Normal" and
    1.0 on every other text; "Normal" is the only text that gives 0.0. *)
Theorem state_transform_sentinel :
  IMPORTANT_PWRSTAT_STAT_KEYS_TRANSFORMS !! "State" = Some state_transform
  ∧ state_transform "Normal" = Ok (flt 0)
  ∧ (∀ x, x ≠ "Normal" → state_transform x = Ok (flt 1))
  ∧ (∀ x, state_transform x = Ok (flt 0) ↔ x = "Normal").
Proof.
  split; [by rewrite transforms_lookup|]. split; [done|].
  assert (∀ x, x ≠ "Normal" → state_transform x = Ok (flt 1)) as Hother.
  { intros x Hx. unfold state_transform.
    destruct (String.eqb_spec x "Normal"); done. }
  split; [done|]. intros x. split.
  - intros H0. destruct (decide (x = "Normal")) as [|Hx]; [done|].
    rewrite (Hother x Hx) in H0. discriminate.
  - by intros ->.
Qed.

Lemma write_influxdb_raise client series_name d dry_run e :
  field_mapper series_name d = Raise e →
  write_influxdb client series_name d dry_run = ([], Raise e).
Proof. intros H. by rewrite write_influxdb_unfold, H. Qed.

(** C3, as the code has it.  [KeyError] is raised only for a required
    label that is absent.  When a required label is absent the mapping
    raises: [KeyError], or [ValueError] from a value label met earlier.  An
    absent tag label always gives [KeyError]; an absent value label gives
    [KeyError] with its own name when the tags are all present and the
    value labels listed before it are accepted.  When the mapping raises,
    [write_influxdb] raises the same exception and has logged and written
    nothing. *)
Theorem field_mapper_missing series_name d :
  (∀ k, field_mapper series_name d = Raise (KeyError k) →
        k ∈ required_labels ∧ d !! k = None)
  ∧ (∀ l, l ∈ required_labels → d !! l = None →
          (∃ k, field_mapper series_name d = Raise (KeyError k))
          ∨ (∃ token, field_mapper series_name d = Raise (ValueError token)))
  ∧ (∀ l, l ∈ IMPORTANT_PWRSTAT_TAG_KEYS → d !! l = None →
          ∃ k, field_mapper series_name d = Raise (KeyError k))
  ∧ (∀ pre l post,
        IMPORTANT_PWRSTAT_VALUE_KEYS = (pre ++ l :: post)%list →
        Forall (λ t, is_Some (d !! t)) IMPORTANT_PWRSTAT_TAG_KEYS →
        Forall (accepted d) pre → d !! l = None →
        field_mapper series_name d = Raise (KeyError l))
  ∧ (∀ e client dry_run,
        field_mapper series_name d = Raise e →
        write_influxdb client series_name d dry_run = ([], Raise e)).
Proof.
  assert (∀ l, l ∈ IMPORTANT_PWRSTAT_TAG_KEYS → d !! l = None →
               ∃ k, field_mapper series_name d = Raise (KeyError k)) as Htag.
  { intros l Hin Hnone. unfold field_mapper.
    destruct (for_each_tag_step_missing d _ (JsonBody series_name ∅ ∅ None)
                l Hin Hnone) as [k ->].
    by exists k. }
  split; [|split; [|split; [done|split]]].
  - intros k. unfold field_mapper, required_labels.
    destruct (for_each (tag_step d) _ IMPORTANT_PWRSTAT_TAG_KEYS)
      as [body|e] eqn:Htags; cbn [mbind result_bind].
    + intros H.
      destruct (for_each_stat_step_raise d _ _ _ H)
        as [(k' & [= <-] & Hin & Hnone)|(? & ? & [=] & _)].
      split; [|done]. apply elem_of_app. by right.
    + intros [= ->].
      destruct (for_each_tag_step_raise d _ _ _ Htags)
        as (k' & [= <-] & Hin & Hnone).
      split; [|done]. apply elem_of_app. by left.
  - intros l Hin Hnone. apply elem_of_app in Hin as [Hin|Hin].
    { left. by apply (Htag l). }
    unfold field_mapper.
    destruct (for_each (tag_step d) _ IMPORTANT_PWRSTAT_TAG_KEYS)
      as [body|e] eqn:Htags; cbn [mbind result_bind].
    + destruct (for_each_stat_step_fails d _ body l Hin) as [e He].
      { intros (raw & x & Hl & _). congruence. }
      rewrite He.
      destruct (for_each_stat_step_raise d _ _ _ He)
        as [(k & -> & _)|(k & raw & -> & _)]; [left|right]; by eexists.
    + destruct (for_each_tag_step_raise d _ _ _ Htags) as (k & -> & _).
      left. by exists k.
  - intros pre l post Hlist Htags Hpre Hnone. unfold field_mapper.
    destruct (for_each_tag_step_ok d _ (JsonBody series_name ∅ ∅ None) Htags)
      as [body ->].
    cbn [mbind result_bind]. rewrite Hlist.
    destruct (for_each_stat_step_app d pre (l :: post) body Hpre) as [body' ->].
    cbn [for_each]. by rewrite stat_step_unfold, Hnone.
  - intros e client dry_run. apply write_influxdb_raise.
Qed.

(** C3 as the spec words it fails: "Load" is absent, yet the exception is
    the [ValueError] of "Utility Voltage", which is met first. *)
Lemma field_mapper_missing_counterexample :
  "Load" ∈ required_labels
  ∧ partial_status !! "Load" = None
  ∧ field_mapper "ups" partial_status = Raise (ValueError "n/a").
Proof.
  split; [|split; by_evaluation].
  unfold required_labels. apply elem_of_app. right.
  unfold IMPORTANT_PWRSTAT_VALUE_KEYS. rewrite !elem_of_cons. auto 10.
Qed.

Lemma scrape_cycle_mapper_raise a c out d e :
  returncode c = 0 → out_decode c = Ok out → parse_pwrstat out = Ok d →
  field_mapper (series a) d = Raise e →
  scrape_cycle a c = ([Popen STAT_COMMAND], Raise e).
Proof.
  intros Hrc Hout Hparse Hmap.
  rewrite scrape_cycle_unfold, Hrc, Hout, Hparse.
  by rewrite (write_influxdb_raise _ _ _ _ _ Hmap).
Qed.

(** C4.  With every required label present, a value label other than
    "State" whose first token [float] refuses makes the mapping raise
    [ValueError] on a refused token: no point comes out of it,
    [write_influxdb] raises before it logs or writes anything, and the
    turn of the loop ends with that exception. *)
Theorem field_mapper_not_coercible series_name d l raw :
  Forall (λ k, is_Some (d !! k)) required_labels →
  l ∈ IMPORTANT_PWRSTAT_VALUE_KEYS → l ≠ "State" →
  d !! l = Some raw → PyFloat.parse (first_token raw) = None →
  ∃ token,
    PyFloat.parse token = None
    ∧ field_mapper series_name d = Raise (ValueError token)
    ∧ (∀ client dry_run,
         write_influxdb client series_name d dry_run
         = ([], Raise (ValueError token)))
    ∧ (∀ a c out,
         series a = series_name → returncode c = 0 →
         out_decode c = Ok out → parse_pwrstat out = Ok d →
         scrape_cycle a c = ([Popen STAT_COMMAND], Raise (ValueError token))).
Proof.
  intros Hall Hin Hstate Hl Hfloat.
  apply Forall_app in Hall as [Htags Hvalues].
  assert (¬ accepted d l) as Hno.
  { intros (raw' & x & Hl' & Hx). rewrite Hl in Hl'. injection Hl' as <-.
    rewrite coerce_float in Hx by done. unfold float in Hx.
    by rewrite Hfloat in Hx. }
  assert (∃ token, PyFloat.parse token = None
                   ∧ field_mapper series_name d = Raise (ValueError token))
    as (token & Htoken & Hmap).
  { unfold field_mapper.
    destruct (for_each_tag_step_ok d _ (JsonBody series_name ∅ ∅ None) Htags)
      as [body ->].
    cbn [mbind result_bind].
    destruct (for_each_stat_step_fails d _ body l Hin Hno) as [e He].
    rewrite He.
    destruct (for_each_stat_step_raise d _ _ _ He)
      as [(k & -> & Hk & Hnone)|(k & raw' & -> & Hk & Hsome & Hc)].
    - rewrite Forall_forall in Hvalues. destruct (Hvalues k Hk) as [? Hsome].
      congruence.
    - exists (first_token raw'). split; [|done].
      destruct (decide (k = "State")) as [->|Hne].
      + by rewrite coerce_state in Hc.
      + rewrite coerce_float in Hc by done. unfold float in Hc.
        by destruct (PyFloat.parse (first_token raw')). }
  exists token. split; [done|]. split; [done|]. split.
  - intros client dry_run. by apply write_influxdb_raise.
  - intros a c out <- Hrc Hout Hparse.
    by apply (scrape_cycle_mapper_raise a c out d).
Qed.

Lemma field_mapper_not_coercible_witness :
  ∃ token,
    PyFloat.parse token = None
    ∧ field_mapper "ups" unreadable_load = Raise (ValueError token)
    ∧ (∀ client dry_run,
         write_influxdb client "ups" unreadable_load dry_run
         = ([], Raise (ValueError token)))
    ∧ (∀ a c out,
         series a = "ups" → returncode c = 0 →
         out_decode c = Ok out → parse_pwrstat out = Ok unreadable_load →
         scrape_cycle a c = ([Popen STAT_COMMAND], Raise (ValueError token))).
Proof.
  apply (field_mapper_not_coercible "ups" unreadable_load "Load" "n/a Watt").
  - unfold required_labels, IMPORTANT_PWRSTAT_TAG_KEYS,
      IMPORTANT_PWRSTAT_VALUE_KEYS.
    repeat constructor; vm_compute; eauto.
  - unfold IMPORTANT_PWRSTAT_VALUE_KEYS. rewrite !elem_of_cons. auto 10.
  - discriminate.
  - by_evaluation.
  - by_evaluation.
Defined.

(** ** The loop *)

(** A prefix of the world on which the loop is still running can be
    followed by any further answers. *)
Lemma scrape_loop_app a pre world t :
  scrape_loop a pre = (t, Running) →
  scrape_loop a (pre ++ world) =
    ((t ++ (scrape_loop a world).1)%list, (scrape_loop a world).2).
Proof.
  revert t. induction pre as [|c pre IH]; intros t; cbn [scrape_loop app].
  - intros [= <-]. by destruct (scrape_loop a world).
  - destruct (scrape_cycle a c) as [tc [[]|e]]; [|done..].
    destruct (scrape_loop a pre) as [t' s] eqn:Hpre.
    intros [= <- ->]. rewrite (IH t' eq_refl).
    cbn [fst snd]. by rewrite (assoc_L (++)).
Qed.

(** [run_scrape] is the loop behind a start-up that writes no point; an
    empty answer to the ping keeps the loop from starting. *)
Lemma run_scrape_no_ping a config client_str world :
  run_scrape a config "" client_str world
  = ([LogError "Error connecting to InfluxDB."], Returned).
Proof. reflexivity. Qed.

Lemma run_scrape_status a config ping client_str world :
  ping ≠ "" →
  (run_scrape a config ping client_str world).2 = (scrape_loop a world).2
  ∧ filter (λ e, is_write e = true)
      (run_scrape a config ping client_str world).1
    = filter (λ e, is_write e = true) (scrape_loop a world).1.
Proof.
  intros Hping. unfold run_scrape.
  destruct (String.eqb_spec ping ""); [done|].
  destruct (scrape_loop a world) as [t s]. cbn [fst snd]. split; [done|].
  rewrite !filter_app. by destruct (admin config).
Qed.



(** C7.  Once the loop has got through the turns [pre], a turn [c] in which
    the command exits with a code other than zero ends it: after [Popen]
    the only thing that can happen is the error message, then [run_scrape]
    returns (or the decoding of the error text raises).  Neither the output
    of the command nor the sink nor any later answer has a part in it. *)
Theorem nonzero_exit_ends_loop a pre c rest t :
  scrape_loop a pre = (t, Running) →
  returncode c ≠ 0 →
  scrape_loop a (pre ++ c :: rest) =
    match err_decode c with
    | Ok err =>
        ((t ++ [Popen STAT_COMMAND;
                LogError ("Error executing " ++ STAT_COMMAND_str ++ ": "
                          ++ Py.strip err)])%list, Returned)
    | Raise e => ((t ++ [Popen STAT_COMMAND])%list, Raised e)
    end.
Proof.
  intros Hpre Hrc. rewrite (scrape_loop_app _ _ _ _ Hpre).
  cbn [scrape_loop]. rewrite scrape_cycle_unfold.
  replace (returncode c =? 0) with false by (symmetry; by apply Z.eqb_neq).
  cbn [negb]. by destruct (err_decode c).
Qed.

Lemma nonzero_exit_ends_loop_witness :
  scrape_loop (Args "ups" (flt 15) false)
    ([] ++ Cycle 1 (Ok "") (Ok "pwrstat: daemon is not running
") (SinkAnswer "2020-02-18T12:05:12" (Ok true)) (Ok tt) :: []) =
    ([Popen STAT_COMMAND;
      LogError ("Error executing " ++ STAT_COMMAND_str ++ ": "
                ++ Py.strip "pwrstat: daemon is not running
")], Returned).
Proof.
  apply (nonzero_exit_ends_loop (Args "ups" (flt 15) false) []
           (Cycle 1 (Ok "") (Ok "pwrstat: daemon is not running
") (SinkAnswer "2020-02-18T12:05:12" (Ok true)) (Ok tt)) [] []).
  - reflexivity.
  - discriminate.
Defined.

Example parse_full_report : parse_pwrstat full_report = Ok full_status.
Proof. by_evaluation. Qed.

Example map_full_status : field_mapper "ups" full_status = Ok full_point.
Proof. by_evaluation. Qed.

(** * Further properties of the code *)

(** ** [parse_pwrstat]: skipped lines, keys, last entry, clean texts *)

Lemma parse_line_skip d line :
  dotted line = false → parse_line d line = Ok d.
Proof.
  unfold dotted, parse_line. intros ->.
  by destruct (String.eqb line "").
Qed.

Lemma for_each_parse_line_filter lines d :
  for_each parse_line d lines
  = for_each parse_line d (filter (λ line, dotted line = true) lines).
Proof.
  revert d. induction lines as [|line lines IH]; intros d; [done|].
  destruct (dotted line) eqn:Hdot.
  - rewrite filter_cons_True by done. cbn [for_each].
    destruct (parse_line d line) as [d'|e]; cbn [mbind result_bind]; [|done].
    apply IH.
  - rewrite filter_cons_False by (by rewrite Hdot). cbn [for_each].
    rewrite parse_line_skip by done. apply IH.
Qed.

(** X1.  Only the lines after the third that hold a period count: two
    texts that agree on them parse to the same dictionary, whatever their
    first three lines and their blank or periodless lines are. *)
Theorem parse_pwrstat_skips out out' :
  filter (λ line, dotted line = true) (drop 3 (Py.split newline out))
  = filter (λ line, dotted line = true) (drop 3 (Py.split newline out')) →
  parse_pwrstat out = parse_pwrstat out'.
Proof.
  intros H. unfold parse_pwrstat.
  rewrite (for_each_parse_line_filter (drop 3 (Py.split newline out))).
  rewrite (for_each_parse_line_filter (drop 3 (Py.split newline out'))).
  by rewrite H.
Qed.

Lemma parse_pwrstat_skips_witness :
  parse_pwrstat short_report = parse_pwrstat "Header
without
a blank line
    UPS status:

State........................ Normal

Load......................... 108 Watt(12 %)
".
Proof.
  apply parse_pwrstat_skips. reflexivity.
Defined.

(** X2.  On every text the keys of the dictionary are exactly the labels
    of the lines after the third that hold a period. *)
Theorem parse_pwrstat_dom out :
  ∃ d, parse_pwrstat out = Ok d
       ∧ dom d = list_to_set
                   (label <$> filter (λ line, dotted line = true)
                                (drop 3 (Py.split newline out))).
Proof.
  unfold parse_pwrstat. rewrite for_each_parse_line_filter.
  destruct (for_each_parse_line_dom
              (filter (λ line, dotted line = true)
                 (drop 3 (Py.split newline out))) ∅) as (d & -> & Hdom).
  { apply Forall_forall. intros line Hin.
    by apply list_elem_of_filter in Hin as [? _]. }
  exists d. split; [done|].
  by rewrite Hdom, dom_empty_L, (left_id_L ∅ (∪)).
Qed.

Lemma for_each_parse_line_keep post (d d' : gmap string string) k :
  Forall (λ line, dotted line = true → label line ≠ k) post →
  for_each parse_line d post = Ok d' → d' !! k = d !! k.
Proof.
  intros Hall. revert d.
  induction Hall as [|line post Hline _ IH]; intros d; cbn [for_each].
  - by intros [= <-].
  - destruct (dotted line) eqn:Hdot.
    + destruct (parse_line_dotted d line Hdot) as [value ->].
      cbn [mbind result_bind]. intros H. rewrite (IH _ H).
      apply lookup_insert_ne. by apply Hline.
    + rewrite parse_line_skip by done. apply IH.
Qed.

Lemma parse_line_entry d line k v :
  dotted line = true → line_entry line = Ok (k, v) →
  parse_line d line = Ok (<[k := v]> d).
Proof.
  intros Hdot Hentry. unfold parse_line, dotted in *.
  destruct line as [|c line]; [done|]. cbn [String.eqb].
  by rewrite Hdot, Hentry.
Qed.

Lemma for_each_parse_line_last pre line post k v (d0 d : gmap string string) :
  dotted line = true →
  line_entry line = Ok (k, v) →
  Forall (λ later, dotted later = true → label later ≠ k) post →
  for_each parse_line d0 (pre ++ line :: post) = Ok d → d !! k = Some v.
Proof.
  intros Hdot Hentry Hpost. revert d0.
  induction pre as [|first pre IH]; intros d0; cbn [app for_each].
  - rewrite (parse_line_entry d0 line k v Hdot Hentry).
    cbn [mbind result_bind].
    intros H. rewrite (for_each_parse_line_keep _ _ _ _ Hpost H).
    apply lookup_insert_eq.
  - destruct (parse_line_ok d0 first) as [d1 ->].
    cbn [mbind result_bind]. apply IH.
Qed.

(** X3.  The last line with a given label decides its entry: when a line
    after the header gives the pair [(k, v)] and no later line that holds
    a period has the label [k], the dictionary maps [k] to [v]. *)
Theorem parse_pwrstat_last_wins out h1 h2 h3 pre line post k v :
  Py.split newline out = h1 :: h2 :: h3 :: (pre ++ line :: post)%list →
  dotted line = true →
  line_entry line = Ok (k, v) →
  Forall (λ later, dotted later = true → label later ≠ k) post →
  ∃ d, parse_pwrstat out = Ok d ∧ d !! k = Some v.
Proof.
  intros Hsplit Hdot Hentry Hpost.
  destruct (parse_pwrstat_ok out) as [d Hd]. exists d. split; [done|].
  unfold parse_pwrstat in Hd. rewrite Hsplit in Hd.
  change (drop 3 (h1 :: h2 :: h3 :: (pre ++ line :: post)%list))
    with (pre ++ line :: post)%list in Hd.
  by apply (for_each_parse_line_last pre line post k v ∅ d).
Qed.

Lemma parse_pwrstat_last_wins_witness :
  ∃ d, parse_pwrstat repeated_report = Ok d
       ∧ d !! "State" = Some "Power Failure".
Proof.
  apply (parse_pwrstat_last_wins repeated_report ""
           "The UPS information shows as following:" ""
           ["State........................ Normal"]
           "State........................ Power Failure" []).
  - reflexivity.
  - reflexivity.
  - reflexivity.
  - constructor.
Defined.

Lemma split_no_sep sep s seg :
  seg ∈ Py.split sep s → Py.contains_char sep seg = false.
Proof.
  revert seg. induction s as [|c s IH]; intros seg; cbn [Py.split].
  - intros ->%list_elem_of_singleton. reflexivity.
  - destruct (Ascii.eqb c sep) eqn:Hc.
    + intros [->|Hin]%elem_of_cons; [reflexivity|by apply IH].
    + destruct (Py.split sep s) as [|seg0 segs].
      * intros ->%list_elem_of_singleton. cbn [Py.contains_char].
        by rewrite Hc.
      * intros [->|Hin]%elem_of_cons.
        -- cbn [Py.contains_char]. rewrite Hc. apply IH, elem_of_cons.
           by left.
        -- apply IH, elem_of_cons. by right.
Qed.

Lemma getitem_elem {A} (l : list A) i x : Py.getitem l i = Ok x → x ∈ l.
Proof.
  unfold Py.getitem.
  destruct ((_ <? 0) || _); [done|].
  destruct (l !! _) as [y|] eqn:Hy; [|done].
  intros [= <-]. by eapply list_elem_of_lookup_2.
Qed.

Lemma lstrip_no_char c s :
  Py.contains_char c s = false → Py.contains_char c (Py.lstrip s) = false.
Proof.
  induction s as [|a s IH]; [done|]. cbn [Py.lstrip].
  destruct (Py.isspace a); [|done].
  cbn [Py.contains_char]. intros [_ H]%orb_false_iff. by apply IH.
Qed.

Lemma rstrip_no_char c s :
  Py.contains_char c s = false → Py.contains_char c (Py.rstrip s) = false.
Proof.
  induction s as [|a s IH]; [done|]. cbn [Py.contains_char Py.rstrip].
  intros [Ha H]%orb_false_iff. specialize (IH H).
  destruct (Py.rstrip s) as [|b r].
  - destruct (Py.isspace a); [done|]. cbn [Py.contains_char].
    by rewrite Ha.
  - change (Py.contains_char c (String a (String b r)))
      with (Ascii.eqb a c || Py.contains_char c (String b r)).
    by rewrite Ha, IH.
Qed.

Lemma strip_no_char c s :
  Py.contains_char c s = false → Py.contains_char c (Py.strip s) = false.
Proof. intros H. by apply rstrip_no_char, lstrip_no_char. Qed.

Lemma lstrip_idem s : Py.lstrip (Py.lstrip s) = Py.lstrip s.
Proof.
  induction s as [|a s IH]; [done|]. cbn [Py.lstrip].
  destruct (Py.isspace a) eqn:Ha; [done|]. cbn [Py.lstrip]. by rewrite Ha.
Qed.

Lemma rstrip_idem s : Py.rstrip (Py.rstrip s) = Py.rstrip s.
Proof.
  induction s as [|a s IH]; [done|]. cbn [Py.rstrip].
  destruct (Py.rstrip s) as [|b r] eqn:Hr.
  - destruct (Py.isspace a) eqn:Ha; [done|]. cbn [Py.rstrip].
    by rewrite Ha.
  - change (Py.rstrip (String a (String b r)))
      with (match Py.rstrip (String b r) with
            | EmptyString =>
                if Py.isspace a then EmptyString else String a EmptyString
            | r' => String a r'
            end).
    by rewrite IH.
Qed.

Lemma lstrip_rstrip s : Py.lstrip (Py.rstrip s) = Py.rstrip (Py.lstrip s).
Proof.
  induction s as [|a s IH]; [done|]. cbn [Py.lstrip Py.rstrip].
  destruct (Py.isspace a) eqn:Ha.
  - rewrite <- IH. destruct (Py.rstrip s) as [|b r]; [done|].
    cbn [Py.lstrip]. by rewrite Ha.
  - cbn [Py.rstrip]. destruct (Py.rstrip s) as [|b r];
      rewrite ?Ha; cbn [Py.lstrip]; by rewrite Ha.
Qed.

Lemma strip_idem s : Py.strip (Py.strip s) = Py.strip s.
Proof.
  unfold Py.strip.
  by rewrite (lstrip_rstrip (Py.lstrip s)), lstrip_idem, rstrip_idem.
Qed.

Lemma clean_strip_segment seg line :
  seg ∈ Py.split "." line → clean (Py.strip seg).
Proof.
  intros Hin. split; [|apply strip_idem].
  by apply strip_no_char, (split_no_sep _ line).
Qed.

Lemma line_entry_clean line k v :
  dotted line = true → line_entry line = Ok (k, v) → clean k ∧ clean v.
Proof.
  intros Hdot Hentry.
  destruct (line_entry_spec _ Hdot)
    as (first & penult & last & H0 & H2 & H1 & He).
  rewrite He in Hentry. injection Hentry as <- <-.
  apply getitem_elem in H0, H2, H1. split.
  - by apply (clean_strip_segment _ line).
  - destruct (Py.contains "Remaining Runtime" line);
      by apply (clean_strip_segment _ line).
Qed.

Lemma for_each_parse_line_clean lines (d d' : gmap string string) :
  map_Forall (λ k v, clean k ∧ clean v) d →
  for_each parse_line d lines = Ok d' →
  map_Forall (λ k v, clean k ∧ clean v) d'.
Proof.
  revert d. induction lines as [|line lines IH]; intros d Hd; cbn [for_each].
  - by intros [= <-].
  - destruct (dotted line) eqn:Hdot.
    + destruct (line_entry_label _ Hdot) as [value Hentry].
      rewrite (parse_line_entry d line _ _ Hdot Hentry).
      cbn [mbind result_bind]. apply IH.
      apply map_Forall_insert_2; [|done].
      by apply (line_entry_clean line).
    + rewrite parse_line_skip by done. by apply IH.
Qed.

(** X4.  Whatever the text, no key and no value of the dictionary holds a
    period, and each of them is already stripped.  (So a value written
    with a decimal point, such as a firmware number 1.2, never comes out
    whole.) *)
Theorem parse_pwrstat_clean out :
  ∃ d, parse_pwrstat out = Ok d
       ∧ map_Forall (λ k v, clean k ∧ clean v) d.
Proof.
  destruct (parse_pwrstat_ok out) as [d Hd]. exists d. split; [done|].
  apply (for_each_parse_line_clean (drop 3 (Py.split newline out)) ∅ d);
    [apply map_Forall_empty|done].
Qed.

(** ** The two loops of [write_influxdb]: what a result holds *)

Section LoopResults.
Variable d : gmap string string.

Lemma for_each_tag_step_keep ls body body' k :
  k ∉ Py.remove_char " " <$> ls →
  for_each (tag_step d) body ls = Ok body' →
  tags body' !! k = tags body !! k.
Proof.
  revert body. induction ls as [|l ls IH]; intros body Hk; cbn [for_each].
  - by intros [= <-].
  - rewrite tag_step_unfold. destruct (d !! l) as [raw|]; [|done].
    cbn [mbind result_bind]. rewrite fmap_cons, not_elem_of_cons in Hk.
    destruct Hk as [Hne Hk]. intros H. rewrite (IH _ Hk H). cbn [tags].
    by apply lookup_insert_ne.
Qed.

Lemma for_each_tag_step_inv ls body body' :
  for_each (tag_step d) body ls = Ok body' →
  measurement body' = measurement body
  ∧ fields body' = fields body
  ∧ time body' = time body
  ∧ Forall (λ l, is_Some (d !! l)) ls
  ∧ dom (tags body') = dom (tags body) ∪ list_to_set (Py.remove_char " " <$> ls)
  ∧ (map_Forall (λ _ v, Py.contains_char " " v = false) (tags body) →
     map_Forall (λ _ v, Py.contains_char " " v = false) (tags body'))
  ∧ (NoDup (Py.remove_char " " <$> ls) →
     ∀ l, l ∈ ls → tags body' !! Py.remove_char " " l = first_token <$> d !! l).
Proof.
  revert body. induction ls as [|l ls IH]; intros body; cbn [for_each].
  - intros [= <-]. repeat split; try done.
    + cbn [fmap list_fmap list_to_set]. by rewrite (right_id_L ∅ (∪)).
    + intros _ l Hl. by apply elem_of_nil in Hl.
  - rewrite tag_step_unfold. destruct (d !! l) as [raw|] eqn:Hl; [|done].
    cbn [mbind result_bind]. intros H.
    destruct (IH _ H) as (Hm & Hf & Ht & Hall & Hdom & Hsp & Hlook).
    cbn [measurement fields time tags] in *.
    repeat split; try done.
    + constructor; [by eexists|done].
    + rewrite Hdom, dom_insert_L. cbn [fmap list_fmap list_to_set].
      by rewrite (comm_L (∪) {[Py.remove_char " " l]} (dom (tags body))), (assoc_L (∪)).
    + intros Hbody. apply Hsp. apply map_Forall_insert_2; [|done].
      unfold first_token. destruct (Py.split " " raw) as [|seg segs] eqn:Hs;
        [done|].
      apply (split_no_sep " " raw). rewrite Hs. by left.
    + intros Hnd l' Hl'. rewrite fmap_cons in Hnd.
      apply NoDup_cons in Hnd as [Hnotin Hnd].
      destruct (decide (l' ∈ ls)) as [Hin|Hout]; [by apply Hlook|].
      apply elem_of_cons in Hl' as [->|?]; [|done].
      rewrite (for_each_tag_step_keep _ _ _ _ Hnotin H). cbn [tags].
      by rewrite lookup_insert_eq, Hl.
Qed.

Lemma for_each_stat_step_keep ls body body' k :
  k ∉ Py.remove_char " " <$> ls →
  for_each (stat_step d) body ls = Ok body' →
  fields body' !! k = fields body !! k.
Proof.
  revert body. induction ls as [|l ls IH]; intros body Hk; cbn [for_each].
  - by intros [= <-].
  - rewrite stat_step_unfold. destruct (d !! l) as [raw|]; [|done].
    destruct (coerce l (first_token raw)) as [x|]; [|done].
    cbn [mbind result_bind]. rewrite fmap_cons, not_elem_of_cons in Hk.
    destruct Hk as [Hne Hk]. intros H. rewrite (IH _ Hk H). cbn [fields].
    by apply lookup_insert_ne.
Qed.

Lemma for_each_stat_step_inv ls body body' :
  for_each (stat_step d) body ls = Ok body' →
  measurement body' = measurement body
  ∧ tags body' = tags body
  ∧ time body' = time body
  ∧ Forall (accepted d) ls
  ∧ dom (fields body') = dom (fields body) ∪ list_to_set (Py.remove_char " " <$> ls)
  ∧ (NoDup (Py.remove_char " " <$> ls) →
     ∀ l, l ∈ ls →
       ∃ raw x, d !! l = Some raw ∧ coerce l (first_token raw) = Ok x
                ∧ fields body' !! Py.remove_char " " l = Some x).
Proof.
  revert body. induction ls as [|l ls IH]; intros body; cbn [for_each].
  - intros [= <-]. repeat split; try done.
    + cbn [fmap list_fmap list_to_set]. by rewrite (right_id_L ∅ (∪)).
    + intros _ l Hl. by apply elem_of_nil in Hl.
  - rewrite stat_step_unfold. destruct (d !! l) as [raw|] eqn:Hl; [|done].
    destruct (coerce l (first_token raw)) as [x|] eqn:Hx; [|done].
    cbn [mbind result_bind]. intros H.
    destruct (IH _ H) as (Hm & Ht & Hti & Hall & Hdom & Hlook).
    cbn [measurement fields time tags] in *.
    repeat split; try done.
    + constructor; [by exists raw, x|done].
    + rewrite Hdom, dom_insert_L. cbn [fmap list_fmap list_to_set].
      by rewrite (comm_L (∪) {[Py.remove_char " " l]} (dom (fields body))), (assoc_L (∪)).
    + intros Hnd l' Hl'. rewrite fmap_cons in Hnd.
      apply NoDup_cons in Hnd as [Hnotin Hnd].
      destruct (decide (l' ∈ ls)) as [Hin|Hout]; [by apply Hlook|].
      apply elem_of_cons in Hl' as [->|?]; [|done].
      exists raw, x. split; [done|]. split; [done|].
      rewrite (for_each_stat_step_keep _ _ _ _ Hnotin H). cbn [fields].
      by rewrite lookup_insert_eq.
Qed.
End LoopResults.

Lemma tag_keys_NoDup : NoDup (Py.remove_char " " <$> IMPORTANT_PWRSTAT_TAG_KEYS).
Proof. apply (bool_decide_unpack _). by vm_compute. Qed.

Lemma value_keys_NoDup :
  NoDup (Py.remove_char " " <$> IMPORTANT_PWRSTAT_VALUE_KEYS).
Proof. apply (bool_decide_unpack _). by vm_compute. Qed.

(** What a result of the two loops holds. *)
Lemma field_mapper_ok_inv series_name d body :
  field_mapper series_name d = Ok body →
  measurement body = series_name
  ∧ time body = None
  ∧ Forall (λ l, is_Some (d !! l)) IMPORTANT_PWRSTAT_TAG_KEYS
  ∧ Forall (accepted d) IMPORTANT_PWRSTAT_VALUE_KEYS
  ∧ dom (tags body)
    = list_to_set (Py.remove_char " " <$> IMPORTANT_PWRSTAT_TAG_KEYS)
  ∧ dom (fields body)
    = list_to_set (Py.remove_char " " <$> IMPORTANT_PWRSTAT_VALUE_KEYS)
  ∧ map_Forall (λ _ v, Py.contains_char " " v = false) (tags body)
  ∧ (∀ l, l ∈ IMPORTANT_PWRSTAT_TAG_KEYS →
          tags body !! Py.remove_char " " l = first_token <$> d !! l)
  ∧ (∀ l, l ∈ IMPORTANT_PWRSTAT_VALUE_KEYS →
          ∃ raw x, d !! l = Some raw ∧ coerce l (first_token raw) = Ok x
                   ∧ fields body !! Py.remove_char " " l = Some x).
Proof.
  unfold field_mapper.
  destruct (for_each (tag_step d) _ IMPORTANT_PWRSTAT_TAG_KEYS)
    as [body1|e] eqn:Htags; [|done].
  cbn [mbind result_bind]. intros Hstats.
  destruct (for_each_tag_step_inv d _ _ _ Htags)
    as (Hm1 & Hf1 & Ht1 & Hall1 & Hdom1 & Hsp1 & Hlook1).
  destruct (for_each_stat_step_inv d _ _ _ Hstats)
    as (Hm2 & Htg2 & Ht2 & Hall2 & Hdom2 & Hlook2).
  cbn [measurement fields time tags] in *.
  rewrite Hm2, Ht2, Htg2, Hdom1, Hdom2, Hf1, !dom_empty_L, !(left_id_L ∅ (∪)).
  repeat split; try done.
  - apply Hsp1, map_Forall_empty.
  - apply Hlook1, tag_keys_NoDup.
  - apply Hlook2, value_keys_NoDup.
Qed.

Lemma tag_value_keys_disjoint :
  Forall (λ k, k ∉ Py.remove_char " " <$> IMPORTANT_PWRSTAT_VALUE_KEYS)
    (Py.remove_char " " <$> IMPORTANT_PWRSTAT_TAG_KEYS).
Proof. apply (bool_decide_unpack _). by vm_compute. Qed.

(** ** The field mapping: when it gives a point, and which *)

(** X5.  The two loops give a point exactly when every tag label is
    present and every value label is present with a first token that its
    transform (or [float]) takes. *)
Theorem field_mapper_ok_iff series_name d :
  (∃ body, field_mapper series_name d = Ok body)
  ↔ Forall (λ l, is_Some (d !! l)) IMPORTANT_PWRSTAT_TAG_KEYS
    ∧ Forall (accepted d) IMPORTANT_PWRSTAT_VALUE_KEYS.
Proof.
  split.
  - intros [body H].
    destruct (field_mapper_ok_inv _ _ _ H) as (_ & _ & Ht & Hv & _).
    by split.
  - intros [Ht Hv]. unfold field_mapper.
    destruct (for_each_tag_step_ok d _ (JsonBody series_name ∅ ∅ None) Ht)
      as [body1 ->].
    cbn [mbind result_bind]. by apply for_each_stat_step_ok.
Qed.

(** X6.  A point that comes out of the two loops has the series name as
    its measurement and no time yet; its tag keys are the four tag labels
    without their spaces and its field keys the six value labels without
    theirs, no key being both; each tag is the first token of the raw
    value of its label, and each field is what [coerce] makes of the first
    token of the raw value of its label. *)
Theorem field_mapper_point series_name d body :
  field_mapper series_name d = Ok body →
  measurement body = series_name
  ∧ time body = None
  ∧ dom (tags body)
    = list_to_set ["ModelName"; "FirmwareNumber"; "RatingVoltage";
                   "RatingPower"]
  ∧ dom (fields body)
    = list_to_set ["State"; "UtilityVoltage"; "OutputVoltage";
                   "BatteryCapacity"; "RemainingRuntime"; "Load"]
  ∧ dom (tags body) ## dom (fields body)
  ∧ (∀ l, l ∈ IMPORTANT_PWRSTAT_TAG_KEYS →
          tags body !! Py.remove_char " " l = first_token <$> d !! l)
  ∧ (∀ l, l ∈ IMPORTANT_PWRSTAT_VALUE_KEYS →
          ∃ raw x, d !! l = Some raw ∧ coerce l (first_token raw) = Ok x
                   ∧ fields body !! Py.remove_char " " l = Some x).
Proof.
  intros H.
  destruct (field_mapper_ok_inv _ _ _ H)
    as (Hm & Ht & _ & _ & Hdt & Hdf & _ & Hlt & Hlf).
  repeat split; try done.
  rewrite Hdt, Hdf. apply elem_of_disjoint. intros k Hk1 Hk2.
  apply elem_of_list_to_set in Hk1, Hk2.
  pose proof tag_value_keys_disjoint as Hdis.
  rewrite Forall_forall in Hdis. by apply (Hdis k).
Qed.

Lemma field_mapper_point_witness :
  measurement (fixture_point "ups") = "ups"
  ∧ time (fixture_point "ups") = None
  ∧ dom (tags (fixture_point "ups"))
    = list_to_set ["ModelName"; "FirmwareNumber"; "RatingVoltage";
                   "RatingPower"]
  ∧ dom (fields (fixture_point "ups"))
    = list_to_set ["State"; "UtilityVoltage"; "OutputVoltage";
                   "BatteryCapacity"; "RemainingRuntime"; "Load"]
  ∧ dom (tags (fixture_point "ups")) ## dom (fields (fixture_point "ups"))
  ∧ (∀ l, l ∈ IMPORTANT_PWRSTAT_TAG_KEYS →
          tags (fixture_point "ups") !! Py.remove_char " " l
          = first_token <$> fixture !! l)
  ∧ (∀ l, l ∈ IMPORTANT_PWRSTAT_VALUE_KEYS →
          ∃ raw x, fixture !! l = Some raw
                   ∧ coerce l (first_token raw) = Ok x
                   ∧ fields (fixture_point "ups") !! Py.remove_char " " l
                     = Some x).
Proof.
  apply (field_mapper_point "ups" fixture (fixture_point "ups")).
  by_evaluation.
Defined.

Lemma for_each_ext_in {A S} (f g : S → A → result S) xs s :
  (∀ x s', x ∈ xs → f s' x = g s' x) →
  for_each f s xs = for_each g s xs.
Proof.
  revert s. induction xs as [|x xs IH]; intros s Hext; [done|].
  cbn [for_each]. rewrite (Hext x s) by (by left).
  destruct (g s x) as [s'|e]; [|done]. cbn [mbind result_bind].
  apply IH. intros y s'' Hy. apply Hext. by right.
Qed.

(** X7.  Only the ten required labels are read: two dictionaries that
    agree on them give the same point or the same exception, whatever
    other labels they hold. *)
Theorem field_mapper_only_required series_name d d' :
  Forall (λ l, d !! l = d' !! l) required_labels →
  field_mapper series_name d = field_mapper series_name d'.
Proof.
  unfold required_labels. intros [Ht Hv]%Forall_app.
  rewrite Forall_forall in Ht, Hv. unfold field_mapper.
  rewrite (for_each_ext_in (tag_step d) (tag_step d')).
  2:{ intros l body Hl. by rewrite !tag_step_unfold, (Ht l Hl). }
  destruct (for_each (tag_step d') _ _) as [body|e]; [|done].
  cbn [mbind result_bind]. apply for_each_ext_in.
  intros l body' Hl. by rewrite !stat_step_unfold, (Hv l Hl).
Qed.

Lemma field_mapper_only_required_witness :
  field_mapper "ups" fixture
  = field_mapper "ups" (<["Line Interaction" := "None"]> fixture).
Proof.
  apply field_mapper_only_required.
  unfold required_labels, IMPORTANT_PWRSTAT_TAG_KEYS,
    IMPORTANT_PWRSTAT_VALUE_KEYS.
  repeat constructor; by_evaluation.
Defined.

(** X8.  No tag of a point holds a space: each is cut at the first space
    of its raw value. *)
Theorem field_mapper_tags_no_space series_name d body :
  field_mapper series_name d = Ok body →
  map_Forall (λ _ v, Py.contains_char " " v = false) (tags body).
Proof.
  intros H. by destruct (field_mapper_ok_inv _ _ _ H) as (_&_&_&_&_&_&?&_).
Qed.

Lemma field_mapper_tags_no_space_witness :
  map_Forall (λ _ v, Py.contains_char " " v = false)
    (tags (fixture_point "ups")).
Proof.
  apply (field_mapper_tags_no_space "ups" fixture (fixture_point "ups")).
  by_evaluation.
Defined.

(** X9.  In a point the field "State" is 0.0 when the first token of the
    raw state is exactly "Normal" and 1.0 in every other case: the state
    never makes the mapping fail, and only the text up to the first space
    counts. *)
Theorem field_mapper_state series_name d body :
  field_mapper series_name d = Ok body →
  ∃ raw, d !! "State" = Some raw
         ∧ fields body !! "State"
           = Some (if decide (first_token raw = "Normal")
                   then flt 0 else flt 1).
Proof.
  intros H.
  destruct (field_mapper_ok_inv _ _ _ H) as (_&_&_&_&_&_&_&_&Hlf).
  destruct (Hlf "State") as (raw & x & Hraw & Hx & Hfield).
  { unfold IMPORTANT_PWRSTAT_VALUE_KEYS. by left. }
  exists raw. split; [done|].
  change (Py.remove_char " " "State") with "State" in Hfield.
  rewrite Hfield. rewrite coerce_state in Hx. unfold state_transform in Hx.
  injection Hx as <-.
  destruct (String.eqb_spec (first_token raw) "Normal");
    case_decide; done.
Qed.

Lemma field_mapper_state_witness :
  ∃ raw, fixture !! "State" = Some raw
         ∧ fields (fixture_point "ups") !! "State"
           = Some (if decide (first_token raw = "Normal")
                   then flt 0 else flt 1).
Proof.
  apply (field_mapper_state "ups" fixture (fixture_point "ups")).
  by_evaluation.
Defined.

(** ** [write_influxdb]: what is written, and how a call ends *)

(** X10.  A call of [write_influxdb] hands a list to [write_points] only
    when [dry_run] is off and the mapping gave a point, and the list is
    then that single point with the time of the clock. *)
Theorem write_influxdb_writes client series_name d dry_run ps :
  WritePoints ps ∈ (write_influxdb client series_name d dry_run).1
  ↔ dry_run = false
    ∧ ∃ body, field_mapper series_name d = Ok body
              ∧ ps = [stamped body (utcnow client)].
Proof.
  rewrite write_influxdb_unfold.
  destruct (field_mapper series_name d) as [body|e]; cbn [fst].
  2:{ rewrite elem_of_nil. split; [done|]. by intros (_ & ? & ? & _). }
  destruct dry_run; cbn zeta.
  { cbn [fst]. rewrite list_elem_of_singleton. split; [done|].
    by intros [? _]. }
  assert (WritePoints ps
            ∈ [LogDebug (stamped body (utcnow client));
               WritePoints [stamped body (utcnow client)]]
          ↔ ps = [stamped body (utcnow client)]) as Hps.
  { rewrite !elem_of_cons, elem_of_nil. split.
    - intros [?|[[= ->]|?]]; done.
    - intros ->. auto. }
  split.
  - intros Hin. split; [done|]. exists body. split; [done|].
    apply Hps.
    destruct (write_points client) as [[]|e]; cbn [fst] in Hin; [done| |done].
    rewrite !elem_of_cons, elem_of_nil in *.
    destruct Hin as [?|[?|[?|?]]]; auto; done.
  - intros (_ & body' & [= <-] & Hbody). apply Hps in Hbody.
    destruct (write_points client) as [[]|e]; cbn [fst]; [done| |done].
    rewrite !elem_of_cons, elem_of_nil in *.
    destruct Hbody as [?|[?|?]]; auto.
Qed.

(** X11.  A call of [write_influxdb] returns normally exactly when the
    mapping gave a point and, unless [dry_run] is on, [write_points]
    answered without raising; it logs an error exactly when it got as far
    as [write_points] and the answer was [False]. *)
Theorem write_influxdb_ends client series_name d dry_run :
  ((write_influxdb client series_name d dry_run).2 = Ok tt
   ↔ (∃ body, field_mapper series_name d = Ok body)
     ∧ (dry_run = true ∨ ∃ success, write_points client = Ok success))
  ∧ (∀ msg,
       LogError msg ∈ (write_influxdb client series_name d dry_run).1
       ↔ (∃ body, field_mapper series_name d = Ok body)
         ∧ dry_run = false ∧ write_points client = Ok false
         ∧ msg = "Error writing to InfluxDB!").
Proof.
  rewrite write_influxdb_unfold.
  destruct (field_mapper series_name d) as [body|e]; cbn [fst snd].
  2:{ split; [|intros msg; rewrite elem_of_nil];
        (split; [done|]); by intros [[? ?] _]. }
  destruct dry_run; cbn zeta.
  { cbn [fst snd]. split.
    - split; [|done]. intros _. split; [by eexists|by left].
    - intros msg. rewrite list_elem_of_singleton. split; [done|].
      by intros (_ & ? & _). }
  destruct (write_points client) as [[]|e]; cbn [fst snd]; split.
  - split; [|done]. intros _. split; [by eexists|right; by eexists].
  - intros msg. rewrite !elem_of_cons, elem_of_nil. split.
    + intros [?|[?|?]]; done.
    + by intros (_ & _ & ? & _).
  - split; [|done]. intros _. split; [by eexists|right; by eexists].
  - intros msg. rewrite !elem_of_cons, elem_of_nil. split.
    + intros [?|[?|[[= <-]|?]]]; try done. split; [by eexists|done].
    + intros (_ & _ & _ & ->). auto.
  - split; [done|]. intros [_ [?|[? ?]]]; done.
  - intros msg. rewrite !elem_of_cons, elem_of_nil. split.
    + intros [?|[?|?]]; done.
    + by intros (_ & _ & ? & _).
Qed.

(** ** The loop: how it ends and what it leaves behind *)

Lemma count_app p t t' : count p (t ++ t') = (count p t + count p t')%nat.
Proof. unfold count. by rewrite List.filter_app, length_app. Qed.

(** One turn: the kinds of its events and how many of each.  A turn
    that ends normally has slept; a turn that ends otherwise has called
    [time.sleep] at most once, and not at all when [time.sleep] would
    have returned. *)
Lemma scrape_cycle_shape a c :
  forallb loop_event (scrape_cycle a c).1 = true
  ∧ count is_popen (scrape_cycle a c).1 = 1%nat
  ∧ (count is_write (scrape_cycle a c).1 ≤ 1)%nat
  ∧ (count is_sleep (scrape_cycle a c).1 ≤ 1)%nat
  ∧ ((scrape_cycle a c).2 = Ok Continue →
     count is_sleep (scrape_cycle a c).1 = 1%nat
     ∧ sleep_result (interval a) (slept c) = Ok tt)
  ∧ ((scrape_cycle a c).2 ≠ Ok Continue →
     sleep_result (interval a) (slept c) = Ok tt →
     count is_sleep (scrape_cycle a c).1 = 0%nat).
Proof.
  rewrite scrape_cycle_unfold. destruct (negb (returncode c =? 0)).
  { destruct (err_decode c); cbn; repeat split; auto; done. }
  destruct (out_decode c) as [out|e]; [|cbn; repeat split; auto; done].
  destruct (parse_pwrstat out) as [d|e]; [|cbn; repeat split; auto; done].
  rewrite write_influxdb_unfold. unfold after_sleep.
  destruct (field_mapper (series a) d) as [body|e];
    [|cbn; repeat split; auto; done].
  destruct (dry_run a).
  { destruct (sleep_result (interval a) (slept c)) as [[]|e];
      cbn; repeat split; auto; done. }
  destruct (write_points (client c)) as [[]|e];
    [..|cbn; repeat split; auto; done];
    destruct (sleep_result (interval a) (slept c)) as [[]|e'];
    cbn; repeat split; auto; done.
Qed.

(** One turn, by the way it ends. *)
Lemma scrape_cycle_return a c tc :
  scrape_cycle a c = (tc, Ok Return) →
  returncode c ≠ 0
  ∧ ∃ err, err_decode c = Ok err
           ∧ tc = [Popen STAT_COMMAND;
                   LogError ("Error executing " ++ STAT_COMMAND_str ++ ": "
                             ++ Py.strip err)].
Proof.
  rewrite scrape_cycle_unfold.
  destruct (returncode c =? 0) eqn:Hrc; cbn [negb].
  - destruct (out_decode c) as [out|e]; [|done].
    destruct (parse_pwrstat out) as [d|e]; [|done].
    unfold after_sleep.
    destruct (write_influxdb _ _ _ _) as [t [[]|e]]; [|done].
    by destruct (sleep_result (interval a) (slept c)) as [[]|e].
  - apply Z.eqb_neq in Hrc. destruct (err_decode c) as [err|e]; [|done].
    intros [= <-]. split; [done|]. by exists err.
Qed.

Lemma scrape_cycle_continue a c tc :
  scrape_cycle a c = (tc, Ok Continue) → returncode c = 0.
Proof.
  rewrite scrape_cycle_unfold.
  destruct (returncode c =? 0) eqn:Hrc; cbn [negb].
  - intros _. by apply Z.eqb_eq.
  - by destruct (err_decode c).
Qed.



(** X12.  An exception of [write_points] is not caught: it ends the turn
    right after the call and ends the loop with it, without the error
    message and without the sleep. *)
Theorem write_exception_ends_loop a pre c rest t out d body e :
  scrape_loop a pre = (t, Running) →
  dry_run a = false →
  returncode c = 0 → out_decode c = Ok out → parse_pwrstat out = Ok d →
  field_mapper (series a) d = Ok body →
  write_points (client c) = Raise e →
  let point := stamped body (utcnow (client c)) in
  scrape_loop a (pre ++ c :: rest) =
    ((t ++ [Popen STAT_COMMAND; LogDebug point; WritePoints [point]])%list,
     Raised e).
Proof.
  intros Hpre Hdry Hrc Hout Hparse Hmap Hwrite point.
  rewrite (scrape_loop_app _ _ _ _ Hpre). cbn [scrape_loop].
  rewrite scrape_cycle_unfold, Hrc, Hout, Hparse, write_influxdb_unfold,
    Hmap, Hdry.
  cbn zeta. by rewrite Hwrite.
Qed.

Lemma write_exception_ends_loop_witness :
  let a := Args "ups" (flt 15) false in
  let c := Cycle 0 (Ok full_report) (Ok "")
             (SinkAnswer "2020-02-18T12:05:12"
                (Raise (ValueError "database not found"))) (Ok tt) in
  let point := stamped full_point "2020-02-18T12:05:12" in
  scrape_loop a ([] ++ c :: [c]) =
    (([] ++ [Popen STAT_COMMAND; LogDebug point; WritePoints [point]])%list,
     Raised (ValueError "database not found")).
Proof.
  apply (write_exception_ends_loop (Args "ups" (flt 15) false) []
           (Cycle 0 (Ok full_report) (Ok "")
              (SinkAnswer "2020-02-18T12:05:12"
                 (Raise (ValueError "database not found"))) (Ok tt))
           [Cycle 0 (Ok full_report) (Ok "")
              (SinkAnswer "2020-02-18T12:05:12"
                 (Raise (ValueError "database not found"))) (Ok tt)]
           [] full_report full_status full_point).
  - reflexivity.
  - reflexivity.
  - reflexivity.
  - reflexivity.
  - by_evaluation.
  - by_evaluation.
  - reflexivity.
Defined.

(** X13.  Once the loop has ended, by a return or by an exception, nothing
    follows: further answers of the world change neither its events nor
    the way it ended. *)
Theorem scrape_loop_ended a pre world t s :
  scrape_loop a pre = (t, s) → s ≠ Running →
  scrape_loop a (pre ++ world) = (t, s).
Proof.
  revert t. induction pre as [|c pre IH]; intros t; cbn [scrape_loop app].
  - by intros [= <- <-].
  - destruct (scrape_cycle a c) as [tc [[]|e]]; [|done..].
    destruct (scrape_loop a pre) as [t' s'] eqn:Hpre.
    intros [= <- <-] Hs. by rewrite (IH t' eq_refl Hs).
Qed.

Lemma scrape_loop_ended_witness :
  scrape_loop (Args "ups" (flt 15) false)
    ([Cycle 1 (Ok "") (Ok "") (SinkAnswer "" (Ok true)) (Ok tt)]
     ++ [Cycle 0 (Ok full_report) (Ok "") (SinkAnswer "" (Ok true)) (Ok tt)])
  = ([Popen STAT_COMMAND;
      LogError ("Error executing " ++ STAT_COMMAND_str ++ ": "
                ++ Py.strip "")], Returned).
Proof.
  apply scrape_loop_ended; [reflexivity|discriminate].
Defined.

(** X14.  [run_scrape] returns from its loop only through a turn whose
    command exits with a code other than zero: every turn before it had
    the code zero, and the last thing the loop does is to log the error
    text of the command. *)
Theorem scrape_loop_returned a world t :
  scrape_loop a world = (t, Returned) →
  ∃ pre c rest err t0,
    world = (pre ++ c :: rest)%list
    ∧ scrape_loop a pre = (t0, Running)
    ∧ Forall (λ c', returncode c' = 0) pre
    ∧ returncode c ≠ 0
    ∧ err_decode c = Ok err
    ∧ t = (t0 ++ [Popen STAT_COMMAND;
                  LogError ("Error executing " ++ STAT_COMMAND_str ++ ": "
                            ++ Py.strip err)])%list.
Proof.
  revert t. induction world as [|c world IH]; intros t; cbn [scrape_loop];
    [done|].
  destruct (scrape_cycle a c) as [tc [[]|e]] eqn:Hc; [| |done].
  - destruct (scrape_loop a world) as [t' s'] eqn:Hw. intros [= <- ->].
    destruct (IH t' eq_refl)
      as (pre & c' & rest & err & t0 & -> & Hpre & Hall & Hrc & Herr & ->).
    exists (c :: pre), c', rest, err, (tc ++ t0)%list.
    cbn [scrape_loop app]. rewrite Hc, Hpre.
    repeat split; try done.
    + constructor; [by apply (scrape_cycle_continue a c tc)|done].
    + by rewrite (assoc_L (++)).
  - intros [= <-].
    destruct (scrape_cycle_return a c tc Hc) as (Hrc & err & Herr & ->).
    by exists [], c, world, err, [].
Qed.

Lemma scrape_loop_returned_witness :
  ∃ pre c rest err t0,
    [Cycle 1 (Ok "") (Ok "pwrstat: daemon is not running")
       (SinkAnswer "" (Ok true)) (Ok tt)]
    = (pre ++ c :: rest)%list
    ∧ scrape_loop (Args "ups" (flt 15) false) pre = (t0, Running)
    ∧ Forall (λ c', returncode c' = 0) pre
    ∧ returncode c ≠ 0
    ∧ err_decode c = Ok err
    ∧ [Popen STAT_COMMAND;
       LogError "Error executing ['pwrstat', '-status']: pwrstat: daemon is not running"]
      = (t0 ++ [Popen STAT_COMMAND;
                LogError ("Error executing " ++ STAT_COMMAND_str ++ ": "
                          ++ Py.strip err)])%list.
Proof.
  apply (scrape_loop_returned (Args "ups" (flt 15) false)).
  reflexivity.
Defined.

(** X15.  Every turn that starts calls the command once and calls
    [time.sleep] at most once, as its last act.  While the loop is
    running there are as many [Popen] and as many [Sleep] as turns; once
    it has ended there are as many [Sleep] as [Popen] or one less, and
    one less whenever [time.sleep] returns in every turn; with an
    interval that [time.sleep] refuses the loop ends in its first turn;
    and in no case are there more calls of [write_points] than of the
    command. *)
Theorem scrape_loop_counts a world :
  ((scrape_loop a world).2 = Running →
   count is_popen (scrape_loop a world).1 = length world
   ∧ count is_sleep (scrape_loop a world).1 = length world)
  ∧ ((scrape_loop a world).2 ≠ Running →
     (count is_popen (scrape_loop a world).1 ≤ length world)%nat
     ∧ (count is_sleep (scrape_loop a world).1
        ≤ count is_popen (scrape_loop a world).1
        ≤ S (count is_sleep (scrape_loop a world).1))%nat)
  ∧ (Forall (λ c, sleep_result (interval a) (slept c) = Ok tt) world →
     (scrape_loop a world).2 ≠ Running →
     count is_popen (scrape_loop a world).1
     = S (count is_sleep (scrape_loop a world).1))
  ∧ ((∃ e, sleep_length (interval a) = Raise e) → world ≠ [] →
     (scrape_loop a world).2 ≠ Running
     ∧ count is_popen (scrape_loop a world).1 = 1%nat)
  ∧ (count is_write (scrape_loop a world).1
     ≤ count is_popen (scrape_loop a world).1)%nat.
Proof.
  induction world as [|c world IH]; cbn [scrape_loop length].
  { cbn. repeat split; try done; lia. }
  destruct (scrape_cycle_shape a c) as (_ & Hp & Hw & Hs & Hcont & Hend).
  destruct (scrape_cycle a c) as [tc [[]|e]]; cbn [fst snd] in *.
  - destruct (Hcont eq_refl) as [Hs1 Hok].
    destruct (scrape_loop a world) as [t s]. cbn [fst snd] in *.
    destruct IH as (IHrun & IHend & IHok & _ & IHw). rewrite !count_app.
    split; [|split; [|split; [|split]]].
    + intros Hrun. destruct (IHrun Hrun). lia.
    + intros Hs'. destruct (IHend Hs') as (? & ? & ?). lia.
    + intros Hall%Forall_cons Hs'. destruct Hall as [_ Hall].
      specialize (IHok Hall Hs'). lia.
    + intros [e He] _. exfalso. unfold sleep_result in Hok.
      by rewrite He in Hok.
    + lia.
  - assert (Ok Return ≠ Ok Continue) as Hne by done.
    split; [done|]. split; [intros _; lia|]. split; [|split; [|lia]].
    + intros [Hok _]%Forall_cons _. specialize (Hend Hne Hok). lia.
    + intros _ _. split; [done|lia].
  - assert (@Raise control e ≠ Ok Continue) as Hne by done.
    split; [done|]. split; [intros _; lia|]. split; [|split; [|lia]].
    + intros [Hok _]%Forall_cons _. specialize (Hend Hne Hok). lia.
    + intros _ _. split; [done|lia].
Qed.



Lemma scrape_loop_events a world :
  forallb loop_event (scrape_loop a world).1 = true.
Proof.
  induction world as [|c world IH]; cbn [scrape_loop]; [done|].
  destruct (scrape_cycle_shape a c) as (Hc & _).
  destruct (scrape_cycle a c) as [tc [[]|e]]; cbn [fst] in *; try done.
  destruct (scrape_loop a world) as [t s]. cbn [fst] in *.
  by rewrite forallb_app, Hc, IH.
Qed.

(** X17.  [run_scrape] creates the database exactly when the ping was
    answered and the configuration says [admin]; the database is the
    configured one.  The loop itself never creates a database. *)
Theorem run_scrape_creates a config ping client_str world name :
  CreateDatabase name ∈ (run_scrape a config ping client_str world).1
  ↔ ping ≠ "" ∧ admin config = true ∧ name = db config.
Proof.
  assert (CreateDatabase name ∉ (scrape_loop a world).1) as Hloop.
  { intros Hin. pose proof (scrape_loop_events a world) as Hall.
    rewrite forallb_forall in Hall.
    apply list_elem_of_In in Hin. by apply Hall in Hin. }
  unfold run_scrape. destruct (String.eqb_spec ping "") as [->|Hping].
  { cbn [fst]. rewrite list_elem_of_singleton. split; [done|].
    by intros [? _]. }
  destruct (scrape_loop a world) as [t s]. cbn [fst] in *.
  rewrite !elem_of_app, !elem_of_cons, elem_of_nil.
  destruct (admin config).
  - rewrite list_elem_of_singleton.
    intuition (try discriminate; try congruence).
  - rewrite elem_of_nil. intuition (try discriminate; try congruence).
Qed.

(** ** [setup_logging] *)

(** X18.  [setup_logging] with a verbosity that is not negative.  It
    raises exactly when [logfile_path] is [True] (a [TypeError], whatever
    else holds) or is a text that is not empty and whose file cannot be
    opened (the exception of the opening); the logger is then left as it
    was, without console handler and without the new level.  When it
    returns, errors and informations are let through, and debug messages
    (the point of every turn) exactly when the verbosity is one or more;
    the level is the greater of 0 and 20 - 10 * verbosity; a console
    handler has been added last; and a file handler is there exactly when
    it was there before or has just been opened for a path that is not
    empty, under the absolute name that the opening gave. *)
Theorem setup_logging_effect logfile_path verbosity opened root_logger :
  0 <= verbosity →
  (∀ e, setup_logging logfile_path verbosity opened root_logger = Raise e
        ↔ (logfile_path = ArgTrue
           ∧ e = TypeError
                   "expected str, bytes or os.PathLike object, not bool")
          ∨ (∃ path, logfile_path = ArgStr path ∧ path ≠ ""
                     ∧ opened = Raise e))
  ∧ (∀ root_logger',
       setup_logging logfile_path verbosity opened root_logger
       = Ok root_logger' →
       is_enabled_for root_logger' ERROR = true
       ∧ is_enabled_for root_logger' INFO = true
       ∧ (is_enabled_for root_logger' DEBUG = true ↔ 1 <= verbosity)
       ∧ level root_logger' = Z.max 0 (20 - 10 * verbosity)
       ∧ last (handlers root_logger') = Some StreamHandler
       ∧ (∀ name, FileHandler name ∈ handlers root_logger'
                  ↔ FileHandler name ∈ handlers root_logger
                    ∨ (∃ path, logfile_path = ArgStr path ∧ path ≠ ""
                               ∧ opened = Ok name))).
Proof.
  intros Hv. unfold setup_logging. split.
  - intros e. destruct logfile_path as [| |path]; cbn [truthy file_handler].
    + cbn. split; [done|]. intros [[? _]|(? & ? & _)]; done.
    + cbn. split.
      * intros [= <-]. by left.
      * intros [[_ ->]|(? & ? & _)]; done.
    + destruct (String.eqb_spec path "") as [->|Hpath]; cbn [negb].
      * cbn. split; [done|]. intros [[? _]|(? & [= <-] & ? & _)]; done.
      * destruct opened as [name|e']; cbn.
        -- split; [done|]. intros [[? _]|(? & _ & _ & ?)]; done.
        -- split.
           ++ intros [= <-]. right. by exists path.
           ++ intros [[? _]|(? & _ & _ & [= <-])]; done.
  - intros root_logger' Hok.
    assert (∃ with_file,
              root_logger' = LoggerState (Z.max (2 - verbosity) 0 * 10)
                               (with_file ++ [StreamHandler])
              ∧ ∀ name, FileHandler name ∈ with_file
                        ↔ FileHandler name ∈ handlers root_logger
                          ∨ (∃ path, logfile_path = ArgStr path ∧ path ≠ ""
                                     ∧ opened = Ok name))
      as (with_file & -> & Hfile).
    { destruct logfile_path as [| |path]; cbn [truthy file_handler] in Hok.
      - injection Hok as <-. eexists. split; [done|]. intros name.
        split; [by left|]. intros [?|(? & ? & _)]; done.
      - done.
      - destruct (String.eqb_spec path "") as [->|Hpath]; cbn [negb] in Hok.
        + injection Hok as <-. eexists. split; [done|]. intros name.
          split; [by left|]. intros [?|(? & [= <-] & ? & _)]; done.
        + destruct opened as [name'|e']; [|done]. cbn in Hok.
          injection Hok as <-. eexists. split; [done|]. intros name.
          rewrite elem_of_app, list_elem_of_singleton. split.
          * intros [?|[= ->]]; [by left|]. right. by exists path.
          * intros [?|(? & _ & _ & [= ->])]; [by left|by right]. }
    unfold is_enabled_for, ERROR, INFO, DEBUG. cbn [level handlers].
    split; [apply Z.leb_le; lia|]. split; [apply Z.leb_le; lia|].
    split; [rewrite Z.leb_le; lia|]. split; [lia|].
    split; [apply last_snoc|].
    intros name. rewrite <- Hfile, elem_of_app, list_elem_of_singleton.
    split; [|by left]. intros [?|?]; done.
Qed.

Lemma setup_logging_effect_witness :
  (∀ e, setup_logging (ArgStr "pwrstat.log") 1 (Ok "/var/log/pwrstat.log")
          (LoggerState 20 []) = Raise e
        ↔ (ArgStr "pwrstat.log" = ArgTrue
           ∧ e = TypeError
                   "expected str, bytes or os.PathLike object, not bool")
          ∨ (∃ path, ArgStr "pwrstat.log" = ArgStr path ∧ path ≠ ""
                     ∧ Ok "/var/log/pwrstat.log" = Raise e))
  ∧ (∀ root_logger',
       setup_logging (ArgStr "pwrstat.log") 1 (Ok "/var/log/pwrstat.log")
         (LoggerState 20 [])
       = Ok root_logger' →
       is_enabled_for root_logger' ERROR = true
       ∧ is_enabled_for root_logger' INFO = true
       ∧ (is_enabled_for root_logger' DEBUG = true ↔ 1 <= 1)
       ∧ level root_logger' = Z.max 0 (20 - 10 * 1)
       ∧ last (handlers root_logger') = Some StreamHandler
       ∧ (∀ name, FileHandler name ∈ handlers root_logger'
                  ↔ FileHandler name ∈ handlers (LoggerState 20 [])
                    ∨ (∃ path, ArgStr "pwrstat.log" = ArgStr path
                               ∧ path ≠ ""
                               ∧ Ok "/var/log/pwrstat.log" = Ok name))).
Proof.
  apply (setup_logging_effect (ArgStr "pwrstat.log") 1
           (Ok "/var/log/pwrstat.log") (LoggerState 20 [])).
  lia.
Defined.

Example setup_logging_file :
  setup_logging (ArgStr "pwrstat.log") 1 (Ok "/var/log/pwrstat.log")
    (LoggerState 20 [])
  = Ok (LoggerState 10 [FileHandler "/var/log/pwrstat.log"; StreamHandler]).
Proof. reflexivity. Qed.

Example setup_logging_store_true :
  setup_logging ArgTrue 0 (Ok "") (LoggerState 20 [])
  = Raise (TypeError "expected str, bytes or os.PathLike object, not bool").
Proof. reflexivity. Qed.

(** ** The loop with [dry_run], and after a refused write *)









